(** * python_blackbox: a Rocq model of the Python-level network blocker

    The development embeds [python_blackbox.py] shallowly: the module's
    globals ([_ORIG], [_BLOCKED], [_WHITELIST], [_DEBUG]) and the patchable
    attributes of the networking modules form one explicit [State]; every
    function of the module is a state-passing function over it, and
    exceptions are values of [result].

    Conventions.
    - Python [str] is modelled by [string]; a character outside ASCII
      stands in it as the bytes of its UTF-8 encoding, on which [==],
      [in], [split], [endswith] and [+] act as they do on the code points.
    - [str.lower] belongs to the interpreter, not to the module: it is a
      parameter [str_lower] of the development.  The one thing assumed of
      it, and only where a statement needs it, is that on a string of
      ASCII characters it maps [A-Z] to [a-z] and leaves the rest alone
      ([PyStr.ascii_lower]).
    - [_WHITELIST : set] is a [gset string], [_ORIG : dict] a
      [gmap string callable].
    - A callable stored in a module attribute is either an implementation
      defined outside this module ([Original]) or one of the replacements
      this module defines. *)

From Stdlib Require Import ZArith Ascii String.
From stdpp Require Import base gmap sets strings pretty list fin_maps.

Local Open Scope string_scope.

(** ** Python string primitives *)

Module PyStr.

Definition colon : ascii := ":"%char.

(** [c.lower()] on the ASCII range. *)
Definition lower_ascii (c : ascii) : ascii :=
  let n := nat_of_ascii c in
  if (65 <=? n)%nat && (n <=? 90)%nat then ascii_of_nat (n + 32) else c.

(** [s.lower()] for a string [s] of ASCII characters. *)
Fixpoint ascii_lower (s : string) : string :=
  match s with
  | EmptyString => EmptyString
  | String c s' => String (lower_ascii c) (ascii_lower s')
  end.

(** [s.isascii()] *)
Fixpoint is_ascii (s : string) : bool :=
  match s with
  | EmptyString => true
  | String c s' => (nat_of_ascii c <? 128)%nat && is_ascii s'
  end.

(** [":" in s] *)
Fixpoint has_colon (s : string) : bool :=
  match s with
  | EmptyString => false
  | String c s' => if Ascii.eqb c colon then true else has_colon s'
  end.

(** [s.split(":", 1)[0]]: the part of [s] before its first colon
    (all of [s] when it has none). *)
Fixpoint before_colon (s : string) : string :=
  match s with
  | EmptyString => EmptyString
  | String c s' =>
      if Ascii.eqb c colon then EmptyString else String c (before_colon s')
  end.

(** [s.endswith(suf)] *)
Fixpoint endswith (s suf : string) : bool :=
  if String.eqb s suf then true
  else match s with
       | EmptyString => false
       | String _ s' => endswith s' suf
       end.

(** [bool(s)] for a string: the empty string is falsy. *)
Definition truthy (s : string) : bool :=
  match s with EmptyString => false | _ => true end.

End PyStr.

(** ** Values, exceptions and the interpreter-wide state *)

(** What a patchable module attribute can hold. *)
Inductive callable : Type :=
  | Original (qualname : string)      (* an implementation from outside this module *)
  | Cls_BlockedSocket                 (* class _BlockedSocket *)
  | Fn_blocked_create_connection      (* def _blocked_create_connection *)
  | Fn_blocked_http_connect           (* def _blocked_http_connect *)
  | Fn_blocked_urlopen                (* def _blocked_urlopen *)
  | Fn_blocked_requests_request.      (* def _blocked_requests_request *)

Inductive exn : Type :=
  | NetworkBlockedError (msg : string)   (* class NetworkBlockedError(RuntimeError) *)
  | KeyError (key : string)              (* a failed [_ORIG[key]] *)
  | Exception (what : string).           (* anything raised by client code *)

Inductive result (A : Type) : Type :=
  | Ok (a : A)
  | Raise (e : exn).
Arguments Ok {A} a.
Arguments Raise {A} e.

(** The attributes the module reads and assigns.  [None] in one of the two
    optional fields means the owner of the attribute is missing:
    [hasattr(ssl, 'SSLContext')] is false, resp. [requests is None]. *)
Record Modules : Type := mkModules {
  socket_socket : callable;
  socket_create_connection : callable;
  urllib_request_urlopen : callable;
  http_client_HTTPConnection_connect : callable;
  ssl_SSLContext_wrap_socket : option callable;
  requests_Session_request : option callable
}.

Record State : Type := mkState {
  _ORIG : gmap string callable;
  _BLOCKED : bool;
  _WHITELIST : gset string;
  _DEBUG : bool;
  modules : Modules;
  stdout : list string
}.

(** A call handed over to a saved original: the callee and the arguments it
    receives.  The replacements [return] whatever that call returns, so the
    call itself is their observable result. *)
Record call (A : Type) : Type := Call { callee : callable; arguments : A }.
Arguments Call {A} callee arguments.
Arguments callee {A} c.
Arguments arguments {A} c.

(** ** State and exception monad *)

Definition M (A : Type) : Type := State -> result A * State.

Definition ret {A} (a : A) : M A := fun st => (Ok a, st).

Definition bind {A B} (m : M A) (k : A -> M B) : M B :=
  fun st => match m st with
            | (Ok a, st') => k a st'
            | (Raise e, st') => (Raise e, st')
            end.

Definition raise {A} (e : exn) : M A := fun st => (Raise e, st).

Definition gets {A} (f : State -> A) : M A := fun st => (Ok (f st), st).

Definition modify (f : State -> State) : M unit := fun st => (Ok tt, f st).

(** [try: body finally: fin] *)
Definition try_finally {A} (body : M A) (fin : M unit) : M A :=
  fun st => match body st with
            | (r, st') =>
                match fin st' with
                | (Ok _, st'') => (r, st'')
                | (Raise e, st'') => (Raise e, st'')
                end
            end.

(** [try: body except Exception: pass] *)
Definition try_pass (body : M unit) : M unit :=
  fun st => match body st with
            | (_, st') => (Ok tt, st')
            end.

Declare Scope py_scope.
Delimit Scope py_scope with py.
Notation "x <- m ;; k" := (bind m (fun x => k))
  (at level 100, m at next level, right associativity) : py_scope.
Notation "m ;; k" := (bind m (fun _ => k))
  (at level 100, right associativity) : py_scope.
Local Open Scope py_scope.

(** Field updates. *)
Definition with_ORIG (o : gmap string callable) (st : State) : State :=
  mkState o (_BLOCKED st) (_WHITELIST st) (_DEBUG st) (modules st) (stdout st).
Definition with_BLOCKED (b : bool) (st : State) : State :=
  mkState (_ORIG st) b (_WHITELIST st) (_DEBUG st) (modules st) (stdout st).
Definition with_WHITELIST (w : gset string) (st : State) : State :=
  mkState (_ORIG st) (_BLOCKED st) w (_DEBUG st) (modules st) (stdout st).
Definition with_DEBUG (d : bool) (st : State) : State :=
  mkState (_ORIG st) (_BLOCKED st) (_WHITELIST st) d (modules st) (stdout st).
Definition with_modules (m : Modules) (st : State) : State :=
  mkState (_ORIG st) (_BLOCKED st) (_WHITELIST st) (_DEBUG st) m (stdout st).
Definition with_stdout (o : list string) (st : State) : State :=
  mkState (_ORIG st) (_BLOCKED st) (_WHITELIST st) (_DEBUG st) (modules st) o.

Definition set_socket_socket (v : callable) (m : Modules) : Modules :=
  mkModules v (socket_create_connection m) (urllib_request_urlopen m)
    (http_client_HTTPConnection_connect m) (ssl_SSLContext_wrap_socket m)
    (requests_Session_request m).
Definition set_socket_create_connection (v : callable) (m : Modules) : Modules :=
  mkModules (socket_socket m) v (urllib_request_urlopen m)
    (http_client_HTTPConnection_connect m) (ssl_SSLContext_wrap_socket m)
    (requests_Session_request m).
Definition set_urllib_request_urlopen (v : callable) (m : Modules) : Modules :=
  mkModules (socket_socket m) (socket_create_connection m) v
    (http_client_HTTPConnection_connect m) (ssl_SSLContext_wrap_socket m)
    (requests_Session_request m).
Definition set_http_client_HTTPConnection_connect (v : callable) (m : Modules) : Modules :=
  mkModules (socket_socket m) (socket_create_connection m) (urllib_request_urlopen m)
    v (ssl_SSLContext_wrap_socket m) (requests_Session_request m).
Definition set_ssl_SSLContext_wrap_socket (v : callable) (m : Modules) : Modules :=
  mkModules (socket_socket m) (socket_create_connection m) (urllib_request_urlopen m)
    (http_client_HTTPConnection_connect m) (Some v) (requests_Session_request m).
Definition set_requests_Session_request (v : callable) (m : Modules) : Modules :=
  mkModules (socket_socket m) (socket_create_connection m) (urllib_request_urlopen m)
    (http_client_HTTPConnection_connect m) (ssl_SSLContext_wrap_socket m) (Some v).

(** [_ORIG[k] = v] and [_ORIG[k]] *)
Definition setitem_ORIG (k : string) (v : callable) : M unit :=
  modify (fun st => with_ORIG (<[k := v]> (_ORIG st)) st).

Definition getitem_ORIG (k : string) : M callable :=
  fun st => match _ORIG st !! k with
            | Some v => (Ok v, st)
            | None => (Raise (KeyError k), st)
            end.

(** Assignment to a module attribute. *)
Definition setattr (set : callable -> Modules -> Modules) (v : callable) : M unit :=
  modify (fun st => with_modules (set v (modules st)) st).

(** ** The module's functions *)

(** [def set_debug(enabled)] *)
Definition set_debug (enabled : bool) : M unit :=
  modify (with_DEBUG enabled).

(** [def _log(msg)] *)
Definition _log (msg : string) : M unit :=
  fun st =>
    if _DEBUG st
    then (Ok tt, with_stdout (stdout st ++ ["[python_blackbox DEBUG] " ++ msg]) st)
    else (Ok tt, st).

(** The test of the whitelist loop's body: [host == w or host.endswith("." + w)]. *)
Definition entry_matches (host w : string) : bool :=
  String.eqb host w || PyStr.endswith host ("." ++ w).

(** [host in ("localhost", "127.0.0.1", "::1")] *)
Definition in_loopback (host : string) : bool :=
  String.eqb host "localhost" || String.eqb host "127.0.0.1" || String.eqb host "::1".

Section StrLower.

(** [str.lower], the interpreter's. *)
Variable str_lower : string -> string.

(** [def _host_allowed(host)].  [host] is [None] or a string.  The loop
    over the set returns [True] at the first matching entry; its log line
    shows the host only, so the effect is the same whichever entry
    matches first. *)
Definition _host_allowed (host : option string) : M bool :=
  match host with
  | None => ret false
  | Some host =>
      if negb (PyStr.truthy host) then ret false
      else
        let host := if PyStr.has_colon host then PyStr.before_colon host else host in
        let host := str_lower host in
        W <- gets _WHITELIST ;;
        if existsb (entry_matches host) (elements W) then
          _log ("Allowing access to whitelisted host " ++ host) ;;
          ret true
        else if in_loopback host then
          _log ("Allowing access to localhost " ++ host) ;;
          ret true
        else
          _log ("Blocking host " ++ host) ;;
          ret false
  end.

(** How an f-string shows a host. *)
Definition fmt_host (host : option string) : string :=
  match host with
  | None => "None"
  | Some h => h
  end.

(** [class _BlockedSocket]: [__init__] always raises. *)
Definition _BlockedSocket___init__ {A R} (args : A) : M R :=
  raise (NetworkBlockedError "Network access blocked by python_blackbox").

(** [def _blocked_create_connection(address, timeout=None, source_address=None)] *)
Definition _blocked_create_connection
    (address : option string * Z) (timeout : option Z)
    (source_address : option (string * Z))
  : M (call ((option string * Z) * option Z * option (string * Z))) :=
  let '(host, port) := address in
  allowed <- _host_allowed host ;;
  if allowed then
    orig <- getitem_ORIG "socket.create_connection" ;;
    ret (Call orig (address, timeout, source_address))
  else
    raise (NetworkBlockedError
             ("Attempt to connect to " ++ fmt_host host ++ ":" ++ pretty port
              ++ " blocked by python_blackbox")).

(** An [http.client.HTTPConnection] object, as far as the module looks at it. *)
Record HTTPConnection : Type := { conn_host : option string }.

(** [def _blocked_http_connect(self)] *)
Definition _blocked_http_connect (self : HTTPConnection) : M (call HTTPConnection) :=
  let host := conn_host self in
  allowed <- _host_allowed host ;;
  if allowed then
    orig <- getitem_ORIG "http.client.HTTPConnection.connect" ;;
    ret (Call orig self)
  else
    raise (NetworkBlockedError
             ("HTTP connect to " ++ fmt_host host ++ " blocked by python_blackbox")).

Section UrlHooks.

(** [urllib.parse.urlparse(url).hostname], with the source's
    [except Exception: host = None] folded in. *)
Variable urlparse_hostname : string -> option string.

(** [def _blocked_urlopen]: [url], the first positional argument or the
    keyword [url], is [Some s] when the
    first argument is a [str], [None] for any other object. *)
Definition _blocked_urlopen (url : option string) : M (call (option string)) :=
  let host := match url with
              | Some s => urlparse_hostname s
              | None => None
              end in
  allowed <- _host_allowed host ;;
  if allowed then
    orig <- getitem_ORIG "urllib.request.urlopen" ;;
    ret (Call orig url)
  else
    raise (NetworkBlockedError
             ("urlopen to " ++ fmt_host host ++ " blocked by python_blackbox")).

(** [def _blocked_requests_request(self, method, url, ...)] *)
Definition _blocked_requests_request (method url : string) : M (call (string * string)) :=
  let host := urlparse_hostname url in
  allowed <- _host_allowed host ;;
  if allowed then
    orig <- getitem_ORIG "requests.Session.request" ;;
    ret (Call orig (method, url))
  else
    raise (NetworkBlockedError
             ("requests to " ++ fmt_host host ++ " blocked by python_blackbox")).

End UrlHooks.

(** Reading a module attribute. *)
Definition getattr {A} (f : Modules -> A) : M A :=
  gets (fun st => f (modules st)).

(** [def block_network()] *)
Definition block_network : M unit :=
  blocked <- gets _BLOCKED ;;
  if blocked then ret tt
  else
    (v <- getattr socket_socket ;; setitem_ORIG "socket.socket" v) ;;
    (v <- getattr socket_create_connection ;; setitem_ORIG "socket.create_connection" v) ;;
    (v <- getattr urllib_request_urlopen ;; setitem_ORIG "urllib.request.urlopen" v) ;;
    (v <- getattr http_client_HTTPConnection_connect ;;
     setitem_ORIG "http.client.HTTPConnection.connect" v) ;;
    setattr set_socket_create_connection Fn_blocked_create_connection ;;
    setattr set_urllib_request_urlopen Fn_blocked_urlopen ;;
    setattr set_http_client_HTTPConnection_connect Fn_blocked_http_connect ;;
    (req <- getattr requests_Session_request ;;
     match req with
     | Some v =>
         setitem_ORIG "requests.Session.request" v ;;
         setattr set_requests_Session_request Fn_blocked_requests_request
     | None => ret tt
     end) ;;
    modify (with_BLOCKED true).

(** One turn of the restore loop of [allow_network]: the [if]/[elif] chain
    on the key [k] with its saved value [v]. *)
Definition restore_item (k : string) (v : callable) (m : Modules) : Modules :=
  if String.eqb k "socket.socket" then set_socket_socket v m
  else if String.eqb k "socket.create_connection" then set_socket_create_connection v m
  else if String.eqb k "urllib.request.urlopen" then set_urllib_request_urlopen v m
  else if String.eqb k "http.client.HTTPConnection.connect"
       then set_http_client_HTTPConnection_connect v m
  else if String.eqb k "ssl.SSLContext.wrap_socket"
          && bool_decide (is_Some (ssl_SSLContext_wrap_socket m))
       then set_ssl_SSLContext_wrap_socket v m
  else if String.eqb k "requests.Session.request"
          && bool_decide (is_Some (requests_Session_request m))
       then set_requests_Session_request v m
  else m.

(** [def allow_network()]: the loop runs over the items of [_ORIG]. *)
Definition allow_network : M unit :=
  blocked <- gets _BLOCKED ;;
  if negb blocked then ret tt
  else
    modify (fun st => with_modules (map_fold restore_item (modules st) (_ORIG st)) st) ;;
    modify (with_ORIG ∅) ;;
    modify (with_BLOCKED false).

(** [def is_blocked()] *)
Definition is_blocked : M bool := gets _BLOCKED.

(** [with allow_temporary(): body] -- the generator of the context manager
    runs up to its [yield], the block runs, and the [finally] clause runs
    on either way out of the block. *)
Definition allow_temporary {A} (body : M A) : M A :=
  _log "Entering allow_temporary context" ;;
  was_blocked <- is_blocked ;;
  (if was_blocked then allow_network else ret tt) ;;
  try_finally body (if was_blocked then block_network else ret tt).

(** [def add_whitelist(host_or_domain)] *)
Definition add_whitelist (host_or_domain : string) : M unit :=
  modify (fun st => with_WHITELIST ({[host_or_domain]} ∪ _WHITELIST st) st) ;;
  _log ("Host/domain added to whitelist: " ++ host_or_domain).

(** [def remove_whitelist(host_or_domain)] *)
Definition remove_whitelist (host_or_domain : string) : M unit :=
  modify (fun st => with_WHITELIST (_WHITELIST st ∖ {[host_or_domain]}) st) ;;
  _log ("Host/domain removed from whitelist: " ++ host_or_domain).

(** [os.environ.get(NAME, "") in ("1", "true", "True")] on the variable's
    value ([""] when it is unset). *)
Definition env_flag (v : string) : bool :=
  String.eqb v "1" || String.eqb v "true" || String.eqb v "True".

(** The globals right after their definitions at the top of the module. *)
Definition initial (PYTHON_BLACKBOX_DEBUG : string) (m : Modules) : State :=
  mkState ∅ false ∅ (env_flag PYTHON_BLACKBOX_DEBUG) m [].

(** The statement at the end of the module: block on import unless
    [PYTHON_BLACKBOX_NOAUTO] says otherwise. *)
Definition on_import (PYTHON_BLACKBOX_NOAUTO : string) : M unit :=
  if env_flag PYTHON_BLACKBOX_NOAUTO then ret tt
  else try_pass (block_network ;; _log "Network access blocked on import.").

(** ** Client code *)

(** A call of [socket.create_connection(address, timeout, source_address)]
    by client code: whatever the attribute holds at that moment runs. *)
Definition call_socket_create_connection
    (address : option string * Z) (timeout : option Z)
    (source_address : option (string * Z))
  : M (call ((option string * Z) * option Z * option (string * Z))) :=
  f <- getattr socket_create_connection ;;
  match f with
  | Fn_blocked_create_connection =>
      _blocked_create_connection address timeout source_address
  | other => ret (Call other (address, timeout, source_address))
  end.

(** A call of [socket.socket(...)] by client code. *)
Definition call_socket_socket {A} (args : A) : M (call A) :=
  f <- getattr socket_socket ;;
  match f with
  | Cls_BlockedSocket => _BlockedSocket___init__ args
  | other => ret (Call other args)
  end.

(** Programs over the public API, with [raise], sequencing, the [with]
    block and [try: ... except Exception: pass]. *)
Inductive prog : Type :=
  | Block_network
  | Allow_network
  | Is_blocked
  | Set_debug (enabled : bool)
  | Add_whitelist (host_or_domain : string)
  | Remove_whitelist (host_or_domain : string)
  | Raise_exn (e : exn)
  | Seq (p q : prog)
  | With_allow_temporary (body : prog)
  | Try_except_pass (body : prog).

Fixpoint exec (p : prog) : M unit :=
  match p with
  | Block_network => block_network
  | Allow_network => allow_network
  | Is_blocked => (is_blocked ;; ret tt)
  | Set_debug b => set_debug b
  | Add_whitelist h => add_whitelist h
  | Remove_whitelist h => remove_whitelist h
  | Raise_exn e => raise e
  | Seq p q => (exec p ;; exec q)
  | With_allow_temporary body => allow_temporary (exec body)
  | Try_except_pass body => try_pass (exec body)
  end.

(** The programs built from [block_network], [allow_network] and
    [allow_temporary] blocks with control flow around them ([is_blocked]
    and [set_debug] are let in as well); no [add_whitelist], no
    [remove_whitelist]. *)
Fixpoint lifecycle_only (p : prog) : bool :=
  match p with
  | Block_network | Allow_network | Raise_exn _ => true
  | Is_blocked | Set_debug _ => true
  | Add_whitelist _ | Remove_whitelist _ => false
  | Seq p q => lifecycle_only p && lifecycle_only q
  | With_allow_temporary body => lifecycle_only body
  | Try_except_pass body => lifecycle_only body
  end.

(** A standard-library environment: every attribute holds its own original;
    [requests] is importable or not. *)
Definition stdlib (with_requests : bool) : Modules :=
  mkModules (Original "socket.socket") (Original "socket.create_connection")
    (Original "urllib.request.urlopen") (Original "http.client.HTTPConnection.connect")
    (Some (Original "ssl.SSLContext.wrap_socket"))
    (if with_requests then Some (Original "requests.Session.request") else None).

(** The state right after the globals are defined, and after
    [block_network()] has run on it, in a standard-library environment. *)
Definition fresh : State := initial "" (stdlib true).
Definition enforcing : State := snd (block_network fresh).

(** ** Vocabulary of the properties *)

(** The host as the matcher compares it: cut at its first colon, then
    lower-cased by [str.lower]. *)
Definition normalize (host : string) : string :=
  str_lower (if PyStr.has_colon host then PyStr.before_colon host else host).

(** [w] is the host itself or a parent domain of it. *)
Definition covers (w host : string) : Prop :=
  host = w \/ exists p, host = p ++ "." ++ w.

(** The decision of [_host_allowed] on a non-empty host. *)
Definition decision (W : gset string) (host : string) : bool :=
  existsb (entry_matches (normalize host)) (elements W) || in_loopback (normalize host).

(** The hook categories of [block_network] and [allow_network]. *)
Inductive category : Type :=
  | Raw_socket
  | Create_connection
  | Urlopen
  | Http_connect
  | Ssl_wrap_socket
  | Requests_request.

(** The key under which a category's original is saved in [_ORIG]. *)
Definition key (c : category) : string :=
  match c with
  | Raw_socket => "socket.socket"
  | Create_connection => "socket.create_connection"
  | Urlopen => "urllib.request.urlopen"
  | Http_connect => "http.client.HTTPConnection.connect"
  | Ssl_wrap_socket => "ssl.SSLContext.wrap_socket"
  | Requests_request => "requests.Session.request"
  end.

(** The attribute a category patches ([None]: its owner is missing). *)
Definition attribute (c : category) (m : Modules) : option callable :=
  match c with
  | Raw_socket => Some (socket_socket m)
  | Create_connection => Some (socket_create_connection m)
  | Urlopen => Some (urllib_request_urlopen m)
  | Http_connect => Some (http_client_HTTPConnection_connect m)
  | Ssl_wrap_socket => ssl_SSLContext_wrap_socket m
  | Requests_request => requests_Session_request m
  end.

(** The module attributes once every saved item of [o] has been put back
    into [m]. *)
Definition restored (o : gmap string callable) (m : Modules) : Modules :=
  mkModules
    (default (socket_socket m) (o !! "socket.socket"))
    (default (socket_create_connection m) (o !! "socket.create_connection"))
    (default (urllib_request_urlopen m) (o !! "urllib.request.urlopen"))
    (default (http_client_HTTPConnection_connect m)
       (o !! "http.client.HTTPConnection.connect"))
    (match ssl_SSLContext_wrap_socket m, o !! "ssl.SSLContext.wrap_socket" with
     | Some _, Some v => Some v
     | cur, _ => cur
     end)
    (match requests_Session_request m, o !! "requests.Session.request" with
     | Some _, Some v => Some v
     | cur, _ => cur
     end).

(** [m] keeps the state predicate [P]. *)
Definition preserves {A} (P : State -> Prop) (m : M A) : Prop :=
  forall st, P st -> P (snd (m st)).

(** [_ORIG] is non-empty exactly when [_BLOCKED] is set. *)
Definition originals_iff_blocked (st : State) : Prop :=
  _ORIG st <> ∅ <-> _BLOCKED st = true.

(** While enforcement is on, [socket.create_connection] is the module's
    replacement and its original is in [_ORIG]. *)
Definition hook_in_place (st : State) : Prop :=
  _BLOCKED st = true ->
  socket_create_connection (modules st) = Fn_blocked_create_connection
  /\ is_Some (_ORIG st !! "socket.create_connection").

(** The module attributes as [block_network] leaves them when it starts
    from the attributes [m]: three replacements, a fourth when [requests]
    is there; [socket.socket] and [ssl.SSLContext.wrap_socket] as in [m]. *)
Definition patched (m : Modules) : Modules :=
  mkModules (socket_socket m) Fn_blocked_create_connection Fn_blocked_urlopen
    Fn_blocked_http_connect (ssl_SSLContext_wrap_socket m)
    (match requests_Session_request m with
     | Some _ => Some Fn_blocked_requests_request
     | None => None
     end).

(** The dictionary [block_network] builds in an empty [_ORIG] from the
    attributes [m]. *)
Definition saved (m : Modules) : gmap string callable :=
  let base :=
    <["http.client.HTTPConnection.connect" := http_client_HTTPConnection_connect m]>
      (<["urllib.request.urlopen" := urllib_request_urlopen m]>
         (<["socket.create_connection" := socket_create_connection m]>
            (<["socket.socket" := socket_socket m]> ∅))) in
  match requests_Session_request m with
  | Some v => <["requests.Session.request" := v]> base
  | None => base
  end.

(** The two shapes of the state over the attributes [m0] the interpreter
    started with: enforcement off, nothing saved and every attribute as in
    [m0]; enforcement on, the originals of [m0] saved and the replacements
    in place. *)
Definition lifecycle_inv (m0 : Modules) (st : State) : Prop :=
  if _BLOCKED st
  then _ORIG st = saved m0 /\ modules st = patched m0
  else _ORIG st = ∅ /\ modules st = m0.

(** The programs that never call [set_debug(True)]. *)
Fixpoint keeps_debug_off (p : prog) : bool :=
  match p with
  | Set_debug b => negb b
  | Seq p q => keeps_debug_off p && keeps_debug_off q
  | With_allow_temporary body => keeps_debug_off body
  | Try_except_pass body => keeps_debug_off body
  | _ => true
  end.

(** * Properties *)

(** ** Strings *)

Lemma endswith_nil suf : PyStr.endswith "" suf = String.eqb "" suf.
Proof. destruct suf; reflexivity. Qed.

Lemma endswith_cons c s suf :
  PyStr.endswith (String c s) suf
  = String.eqb (String c s) suf || PyStr.endswith s suf.
Proof.
  change (PyStr.endswith (String c s) suf)
    with (if String.eqb (String c s) suf then true else PyStr.endswith s suf).
  destruct (String.eqb (String c s) suf); reflexivity.
Qed.

(** [endswith] decides "is a suffix of". *)
Lemma endswith_spec s suf :
  PyStr.endswith s suf = true <-> exists p, s = p ++ suf.
Proof.
  induction s as [|c s IH].
  - rewrite endswith_nil, String.eqb_eq. split.
    + intros <-. exists "". reflexivity.
    + intros [p Hp]. destruct p as [|c' p].
      * exact Hp.
      * change (String c' p ++ suf) with (String c' (p ++ suf)) in Hp. discriminate.
  - rewrite endswith_cons, orb_true_iff, String.eqb_eq, IH. split.
    + intros [<- | [p ->]]; [exists "" | exists (String c p)]; reflexivity.
    + intros [p Hp]. destruct p as [|c' p].
      * left. exact Hp.
      * change (String c' p ++ suf) with (String c' (p ++ suf)) in Hp.
        right. exists p. congruence.
Qed.

Lemma lower_ascii_colon c :
  Ascii.eqb (PyStr.lower_ascii c) PyStr.colon = Ascii.eqb c PyStr.colon.
Proof.
  destruct c as [[] [] [] [] [] [] [] []]; reflexivity.
Qed.

Lemma lower_ascii_idem c :
  PyStr.lower_ascii (PyStr.lower_ascii c) = PyStr.lower_ascii c.
Proof.
  destruct c as [[] [] [] [] [] [] [] []]; reflexivity.
Qed.

Lemma lower_ascii_is_ascii c :
  (nat_of_ascii (PyStr.lower_ascii c) <? 128)%nat = (nat_of_ascii c <? 128)%nat.
Proof.
  destruct c as [[] [] [] [] [] [] [] []]; reflexivity.
Qed.

Lemma ascii_lower_idem s :
  PyStr.ascii_lower (PyStr.ascii_lower s) = PyStr.ascii_lower s.
Proof.
  induction s as [|c s IH]; simpl; [reflexivity|].
  rewrite lower_ascii_idem, IH. reflexivity.
Qed.

Lemma has_colon_ascii_lower s :
  PyStr.has_colon (PyStr.ascii_lower s) = PyStr.has_colon s.
Proof.
  induction s as [|c s IH]; simpl; [reflexivity|].
  rewrite lower_ascii_colon, IH. reflexivity.
Qed.

Lemma is_ascii_ascii_lower s :
  PyStr.is_ascii (PyStr.ascii_lower s) = PyStr.is_ascii s.
Proof.
  induction s as [|c s IH]; [reflexivity|].
  change (PyStr.is_ascii (PyStr.ascii_lower (String c s)))
    with ((nat_of_ascii (PyStr.lower_ascii c) <? 128)%nat
          && PyStr.is_ascii (PyStr.ascii_lower s)).
  rewrite lower_ascii_is_ascii, IH. reflexivity.
Qed.

Lemma is_ascii_before_colon s :
  PyStr.is_ascii s = true -> PyStr.is_ascii (PyStr.before_colon s) = true.
Proof.
  induction s as [|c s IH]; [reflexivity|].
  change (PyStr.is_ascii (String c s))
    with ((nat_of_ascii c <? 128)%nat && PyStr.is_ascii s).
  intros H. apply andb_true_iff in H as [Hc Hs].
  simpl PyStr.before_colon. destruct (Ascii.eqb c PyStr.colon); [reflexivity|].
  change (PyStr.is_ascii (String c (PyStr.before_colon s)))
    with ((nat_of_ascii c <? 128)%nat && PyStr.is_ascii (PyStr.before_colon s)).
  rewrite Hc, (IH Hs). reflexivity.
Qed.

Lemma is_ascii_app_r p w :
  PyStr.is_ascii (p ++ w) = true -> PyStr.is_ascii w = true.
Proof.
  induction p as [|c p IH]; [intros H; exact H|].
  change (PyStr.is_ascii (String c p ++ w))
    with ((nat_of_ascii c <? 128)%nat && PyStr.is_ascii (p ++ w)).
  intros H. apply andb_true_iff in H as [_ H]. apply IH, H.
Qed.

Lemma before_colon_id s : PyStr.has_colon s = false -> PyStr.before_colon s = s.
Proof.
  induction s as [|c s IH]; simpl; [reflexivity|].
  destruct (Ascii.eqb c PyStr.colon); [discriminate|].
  intros H. rewrite IH by assumption. reflexivity.
Qed.

(** What is assumed of [str.lower]: on a string of ASCII characters it
    maps [A-Z] to [a-z] and leaves every other character as it is. *)
Hypothesis str_lower_ascii :
  forall s, PyStr.is_ascii s = true -> str_lower s = PyStr.ascii_lower s.

(** The compared form of an ASCII host. *)
Lemma normalize_ascii h :
  PyStr.is_ascii h = true ->
  normalize h =
  PyStr.ascii_lower (if PyStr.has_colon h then PyStr.before_colon h else h).
Proof.
  intros H. unfold normalize. apply str_lower_ascii.
  destruct (PyStr.has_colon h); [apply is_ascii_before_colon, H | exact H].
Qed.

(** ** The host matcher *)

Lemma entry_matches_spec host w : entry_matches host w = true <-> covers w host.
Proof.
  unfold entry_matches, covers.
  rewrite orb_true_iff, String.eqb_eq, endswith_spec. reflexivity.
Qed.

Lemma _log_fst msg st : fst (_log msg st) = Ok tt.
Proof. unfold _log. destruct (_DEBUG st); reflexivity. Qed.

Lemma _log_snd msg st :
  snd (_log msg st) =
  with_stdout (if _DEBUG st then stdout st ++ ["[python_blackbox DEBUG] " ++ msg]
               else stdout st) st.
Proof. unfold _log. destruct (_DEBUG st); [reflexivity|]. destruct st; reflexivity. Qed.

Lemma _log_eq msg st : _log msg st = (Ok tt, snd (_log msg st)).
Proof. unfold _log. destruct (_DEBUG st); reflexivity. Qed.

Lemma _host_allowed_fst host st :
  fst (_host_allowed (Some host) st) =
  Ok (PyStr.truthy host && decision (_WHITELIST st) host).
Proof.
  unfold _host_allowed, decision. fold (normalize host).
  destruct (PyStr.truthy host); simpl; [|reflexivity].
  unfold bind, gets, ret; simpl.
  destruct (existsb _ _); simpl.
  - rewrite (_log_eq _ st). reflexivity.
  - destruct (in_loopback _); rewrite (_log_eq _ st); reflexivity.
Qed.

(** The matcher writes to the debug output and touches nothing else. *)
Lemma _host_allowed_frame host st :
  exists out, snd (_host_allowed host st) = with_stdout out st.
Proof.
  assert (Hid : st = with_stdout (stdout st) st) by (destruct st; reflexivity).
  destruct host as [host|]; simpl; [|exists (stdout st); exact Hid].
  destruct (PyStr.truthy host); simpl; [|exists (stdout st); exact Hid].
  unfold bind, gets, ret; simpl.
  destruct (existsb _ _); [|destruct (in_loopback _)];
    rewrite (_log_eq _ st); simpl; rewrite _log_snd; eexists; reflexivity.
Qed.

Lemma existsb_entry_matches (W : gset string) (host : string) :
  existsb (entry_matches host) (elements W) = true <->
  exists w, w ∈ W /\ covers w host.
Proof.
  rewrite existsb_exists. split.
  - intros (w & Hin & Hm). exists w. split.
    + apply elem_of_elements, list_elem_of_In, Hin.
    + apply entry_matches_spec, Hm.
  - intros (w & Hin & Hc). exists w. split.
    + apply list_elem_of_In, elem_of_elements, Hin.
    + apply entry_matches_spec, Hc.
Qed.

(** Evaluation of the compared form of a literal ASCII host. *)
Ltac compared_form h :=
  rewrite (normalize_ascii h) by reflexivity;
  let v := eval vm_compute in
    (PyStr.ascii_lower (if PyStr.has_colon h then PyStr.before_colon h else h)) in
  change (PyStr.ascii_lower (if PyStr.has_colon h then PyStr.before_colon h else h))
    with v.

(** "localhost" and "127.0.0.1" pass whatever the whitelist holds. *)
Lemma localhost_allowed st : fst (_host_allowed (Some "localhost") st) = Ok true.
Proof.
  rewrite _host_allowed_fst. unfold decision. compared_form "localhost".
  simpl. rewrite orb_true_r. reflexivity.
Qed.

Lemma ipv4_loopback_allowed st : fst (_host_allowed (Some "127.0.0.1") st) = Ok true.
Proof.
  rewrite _host_allowed_fst. unfold decision. compared_form "127.0.0.1".
  simpl. rewrite orb_true_r. reflexivity.
Qed.

Lemma normalize_id h :
  PyStr.has_colon h = false -> str_lower h = h -> normalize h = h.
Proof. unfold normalize. intros -> ->. reflexivity. Qed.

(** Two hosts with the same truth value and the same normal form are
    treated alike, debug output included. *)
Lemma _host_allowed_ext h h' :
  PyStr.truthy h = PyStr.truthy h' -> normalize h = normalize h' ->
  forall st, _host_allowed (Some h) st = _host_allowed (Some h') st.
Proof.
  intros Ht Hn st. unfold _host_allowed. fold (normalize h) (normalize h').
  rewrite Ht, Hn. reflexivity.
Qed.

Lemma decision_empty_host (W : gset string) :
  existsb (entry_matches "") (elements W) = bool_decide ("" ∈ W).
Proof.
  apply eq_true_iff_eq. rewrite existsb_entry_matches, bool_decide_eq_true.
  split.
  - intros (w & Hin & [<- | [p Hp]]); [exact Hin|].
    destruct p; discriminate Hp.
  - intros Hin. exists "". split; [exact Hin | left; reflexivity].
Qed.

(** C2 (as the code behaves): the IPv6 loopback literal ["::1"] is cut at
    its first colon before it is compared, so what the matcher looks up is
    the empty string: ["::1"] is allowed exactly when the empty string is a
    whitelist entry, and is denied under the empty whitelist -- although
    the tuple of always-allowed hosts in [_host_allowed] lists it. *)
Theorem ipv6_loopback_cut_at_colon :
  (forall st,
     fst (_host_allowed (Some "::1") st) = Ok (bool_decide ("" ∈ _WHITELIST st)))
  /\ fst (_host_allowed (Some "::1") fresh) = Ok false
  /\ fst (_host_allowed (Some "::1") enforcing) = Ok false.
Proof.
  assert (Hgen : forall st,
             fst (_host_allowed (Some "::1") st)
             = Ok (bool_decide ("" ∈ _WHITELIST st))).
  { intros st. rewrite _host_allowed_fst. unfold decision. compared_form "::1".
    rewrite decision_empty_host. simpl. rewrite orb_false_r. reflexivity. }
  split; [exact Hgen|]. split; rewrite Hgen; reflexivity.
Qed.

Lemma decision_singleton h w :
  decision {[w]} h = entry_matches (normalize h) w || in_loopback (normalize h).
Proof.
  unfold decision. rewrite elements_singleton. simpl. rewrite orb_false_r. reflexivity.
Qed.

(** C3 (amended): for a non-empty host [h] and an entry [w], if [h] as the
    matcher compares it -- cut at its first colon, then lower-cased by
    [str.lower] -- equals [w] or ends in ["." ++ w], the matcher returns
    true under the whitelist [{w}].  So it does when [h] is already in that
    form (no colon, and [str.lower] leaves it as it is) and [h = w] or [h]
    ends in ["." ++ w].  And
    "notexample.com" is not matched by the entry "example.com". *)
Theorem subdomain_match :
  (forall h w st,
      _WHITELIST st = {[w]} ->
      h <> "" -> covers w (normalize h) ->
      fst (_host_allowed (Some h) st) = Ok true)
  /\ (forall h w st,
        _WHITELIST st = {[w]} ->
        h <> "" -> PyStr.has_colon h = false -> str_lower h = h ->
        covers w h ->
        fst (_host_allowed (Some h) st) = Ok true)
  /\ (forall st,
        _WHITELIST st = {["example.com"]} ->
        fst (_host_allowed (Some "notexample.com") st) = Ok false).
Proof.
  assert (Hgen : forall h w st,
             _WHITELIST st = {[w]} -> h <> "" -> covers w (normalize h) ->
             fst (_host_allowed (Some h) st) = Ok true).
  { intros h w st HW Hne Hcov.
    rewrite _host_allowed_fst, HW, decision_singleton.
    apply entry_matches_spec in Hcov. rewrite Hcov.
    destruct h; [congruence | reflexivity]. }
  split; [exact Hgen|]. split.
  - intros h w st HW Hne Hcolon Hlow Hcov.
    apply (Hgen h w st HW Hne). rewrite normalize_id by assumption. exact Hcov.
  - intros st HW. rewrite _host_allowed_fst, HW, decision_singleton.
    compared_form "notexample.com". reflexivity.
Qed.

(** The entry "Example.com" does not match the host "Example.com": the
    host is lower-cased, the entry is not. *)
Lemma mixed_case_entry_denied st :
  _WHITELIST st = {["Example.com"]} ->
  fst (_host_allowed (Some "Example.com") st) = Ok false.
Proof.
  intros HW. rewrite _host_allowed_fst, HW, decision_singleton.
  compared_form "Example.com". reflexivity.
Qed.

(** The entry "example.com" matches the host "example.com". *)
Lemma lower_case_entry_allowed st :
  _WHITELIST st = {["example.com"]} ->
  fst (_host_allowed (Some "example.com") st) = Ok true.
Proof.
  intros HW. rewrite _host_allowed_fst, HW, decision_singleton.
  compared_form "example.com". reflexivity.
Qed.

(** The entry "Example.com" does not match the host "example.com". *)
Lemma upper_case_entry_denied st :
  _WHITELIST st = {["Example.com"]} ->
  fst (_host_allowed (Some "example.com") st) = Ok false.
Proof.
  intros HW. rewrite _host_allowed_fst, HW, decision_singleton.
  compared_form "example.com". reflexivity.
Qed.

Lemma app_cons c (s t : string) : String c s ++ t = String c (s ++ t).
Proof. reflexivity. Qed.

Lemma has_colon_app_port h rest :
  PyStr.has_colon (h ++ ":" ++ rest) = true.
Proof.
  induction h as [|c h IH]; [reflexivity|].
  rewrite app_cons. simpl. rewrite IH. destruct (Ascii.eqb c PyStr.colon); reflexivity.
Qed.

Lemma before_colon_app_port h rest :
  PyStr.has_colon h = false -> PyStr.before_colon (h ++ ":" ++ rest) = h.
Proof.
  induction h as [|c h IH]; [reflexivity|].
  rewrite app_cons. simpl. destruct (Ascii.eqb c PyStr.colon); [discriminate|].
  intros H. rewrite IH by exact H. reflexivity.
Qed.

Lemma normalize_no_port h : PyStr.has_colon h = false -> normalize h = str_lower h.
Proof. unfold normalize. intros ->. reflexivity. Qed.

Lemma normalize_port h rest :
  PyStr.has_colon h = false -> normalize (h ++ ":" ++ rest) = str_lower h.
Proof.
  intros H. unfold normalize.
  rewrite has_colon_app_port, before_colon_app_port by exact H. reflexivity.
Qed.

(** C4 (amended): matching is insensitive to the letter case of the host
    name.  Two non-empty hosts without a colon that [str.lower] sends to
    the same string get the same result (and the same debug output) under
    every whitelist; so do two hosts with a port suffix whose parts before
    the first colon [str.lower] sends to the same string.  In particular
    "API.Example.com" is allowed under the whitelist [{"example.com"}]. *)
Theorem host_case_insensitive :
  (forall h h' st,
      h <> "" -> h' <> "" ->
      PyStr.has_colon h = false -> PyStr.has_colon h' = false ->
      str_lower h = str_lower h' ->
      _host_allowed (Some h) st = _host_allowed (Some h') st)
  /\ (forall h h' rest rest' st,
        PyStr.has_colon h = false -> PyStr.has_colon h' = false ->
        str_lower h = str_lower h' ->
        _host_allowed (Some (h ++ ":" ++ rest)) st
        = _host_allowed (Some (h' ++ ":" ++ rest')) st)
  /\ (forall st,
        _WHITELIST st = {["example.com"]} ->
        fst (_host_allowed (Some "API.Example.com") st) = Ok true).
Proof.
  split; [|split].
  - intros h h' st Hne Hne' Hc Hc' Hl. apply _host_allowed_ext.
    + destruct h; [congruence|]. destruct h'; [congruence|]. reflexivity.
    + rewrite !normalize_no_port by assumption. exact Hl.
  - intros h h' rest rest' st Hc Hc' Hl. apply _host_allowed_ext.
    + destruct h, h'; reflexivity.
    + rewrite !normalize_port by assumption. exact Hl.
  - intros st HW. rewrite _host_allowed_fst, HW, decision_singleton.
    compared_form "API.Example.com". reflexivity.
Qed.

(** ** State predicates kept by the monad's combinators *)

Section Preservation.
Variable P : State -> Prop.

Lemma preserves_ret {A} (a : A) : preserves P (ret a).
Proof. intros st H. exact H. Qed.

Lemma preserves_raise {A} e : preserves P (@raise A e).
Proof. intros st H. exact H. Qed.

Lemma preserves_gets {A} (f : State -> A) : preserves P (gets f).
Proof. intros st H. exact H. Qed.

Lemma preserves_bind {A B} (m : M A) (k : A -> M B) :
  preserves P m -> (forall a, preserves P (k a)) -> preserves P (bind m k).
Proof.
  intros Hm Hk st H. unfold bind.
  specialize (Hm st H). destruct (m st) as [[a|e] st']; simpl in *.
  - apply Hk, Hm.
  - exact Hm.
Qed.

Lemma preserves_try_finally {A} (body : M A) (fin : M unit) :
  preserves P body -> preserves P fin -> preserves P (try_finally body fin).
Proof.
  intros Hb Hf st H. unfold try_finally.
  specialize (Hb st H). destruct (body st) as [r st']; simpl in *.
  specialize (Hf st' Hb). destruct (fin st') as [[[]|e] st'']; exact Hf.
Qed.

Lemma preserves_try_pass (body : M unit) :
  preserves P body -> preserves P (try_pass body).
Proof.
  intros Hb st H. unfold try_pass.
  specialize (Hb st H). destruct (body st) as [r st']. exact Hb.
Qed.

Lemma preserves_if {A} (b : bool) (m1 m2 : M A) :
  preserves P m1 -> preserves P m2 -> preserves P (if b then m1 else m2).
Proof. destruct b; auto. Qed.

Hypothesis P_log : forall msg, preserves P (_log msg).
Hypothesis P_block : preserves P block_network.
Hypothesis P_allow : preserves P allow_network.

Lemma preserves_allow_temporary {A} (body : M A) :
  preserves P body -> preserves P (allow_temporary body).
Proof.
  intros Hb. unfold allow_temporary, is_blocked.
  apply preserves_bind; [apply P_log | intros _].
  apply preserves_bind; [apply preserves_gets | intros was_blocked].
  apply preserves_bind.
  - apply preserves_if; [exact P_allow | apply preserves_ret].
  - intros _. apply preserves_try_finally; [exact Hb|].
    apply preserves_if; [exact P_block | apply preserves_ret].
Qed.

End Preservation.

(** A predicate kept by every function of the public API is kept by
    every program over it. *)
Section ExecPreservation.
Variable P : State -> Prop.
Hypothesis P_log : forall msg, preserves P (_log msg).
Hypothesis P_block : preserves P block_network.
Hypothesis P_allow : preserves P allow_network.
Hypothesis P_debug : forall b, preserves P (set_debug b).
Hypothesis P_add : forall h, preserves P (add_whitelist h).
Hypothesis P_remove : forall h, preserves P (remove_whitelist h).

Lemma preserves_exec p : preserves P (exec p).
Proof.
  induction p as [| | |b|h|h|e|p IHp q IHq|body IH|body IH]; simpl.
  - exact P_block.
  - exact P_allow.
  - apply preserves_bind; [apply preserves_gets | intros _; apply preserves_ret].
  - apply P_debug.
  - apply P_add.
  - apply P_remove.
  - apply preserves_raise.
  - apply preserves_bind; [exact IHp | intros _; exact IHq].
  - apply preserves_allow_temporary; assumption.
  - apply preserves_try_pass, IH.
Qed.

End ExecPreservation.

(** ** What the lifecycle functions do to the state *)

Ltac run_block st :=
  unfold block_network, bind, gets, getattr, setitem_ORIG, setattr, modify, ret;
  simpl;
  destruct (_BLOCKED st) eqn:?; simpl;
  try (destruct (requests_Session_request (modules st)); simpl).

Lemma block_network_fst st : fst (block_network st) = Ok tt.
Proof. run_block st; reflexivity. Qed.

Lemma block_network_BLOCKED st : _BLOCKED (snd (block_network st)) = true.
Proof. run_block st; auto. Qed.

Lemma block_network_noop st : _BLOCKED st = true -> block_network st = (Ok tt, st).
Proof. intros H. unfold block_network, bind, gets. simpl. rewrite H. reflexivity. Qed.

Lemma block_network_WHITELIST st :
  _WHITELIST (snd (block_network st)) = _WHITELIST st.
Proof. run_block st; reflexivity. Qed.

Lemma block_network_socket_socket st :
  socket_socket (modules (snd (block_network st))) = socket_socket (modules st).
Proof. run_block st; reflexivity. Qed.

Lemma block_network_ORIG_nonempty st :
  _BLOCKED st = false -> _ORIG (snd (block_network st)) <> ∅.
Proof. intros H. run_block st; try discriminate; apply insert_non_empty. Qed.

Lemma block_network_create_connection st :
  _BLOCKED st = false ->
  socket_create_connection (modules (snd (block_network st)))
    = Fn_blocked_create_connection
  /\ _ORIG (snd (block_network st)) !! "socket.create_connection"
     = Some (socket_create_connection (modules st)).
Proof.
  intros H. run_block st; try discriminate; (split; [reflexivity|]);
    rewrite !lookup_insert_ne by discriminate; apply lookup_insert_eq.
Qed.

Lemma restored_empty m : restored ∅ m = m.
Proof.
  unfold restored. rewrite !lookup_empty. simpl.
  destruct m as [? ? ? ? [?|] [?|]]; reflexivity.
Qed.

Lemma restore_item_restored i x o m :
  o !! i = None ->
  restore_item i x (restored o m) = restored (<[i:=x]> o) m.
Proof.
  intros Hi. unfold restore_item.
  destruct (String.eqb_spec i "socket.socket") as [->|N1].
  { unfold restored, set_socket_socket; simpl.
    rewrite lookup_insert_eq, !lookup_insert_ne by discriminate. reflexivity. }
  destruct (String.eqb_spec i "socket.create_connection") as [->|N2].
  { unfold restored, set_socket_create_connection; simpl.
    rewrite lookup_insert_eq, !lookup_insert_ne by discriminate. reflexivity. }
  destruct (String.eqb_spec i "urllib.request.urlopen") as [->|N3].
  { unfold restored, set_urllib_request_urlopen; simpl.
    rewrite lookup_insert_eq, !lookup_insert_ne by discriminate. reflexivity. }
  destruct (String.eqb_spec i "http.client.HTTPConnection.connect") as [->|N4].
  { unfold restored, set_http_client_HTTPConnection_connect; simpl.
    rewrite lookup_insert_eq, !lookup_insert_ne by discriminate. reflexivity. }
  destruct (String.eqb_spec i "ssl.SSLContext.wrap_socket") as [->|N5].
  { unfold restored, set_ssl_SSLContext_wrap_socket; simpl.
    rewrite Hi, lookup_insert_eq, !lookup_insert_ne by discriminate.
    destruct (ssl_SSLContext_wrap_socket m); reflexivity. }
  destruct (String.eqb_spec i "requests.Session.request") as [->|N6].
  { unfold restored, set_requests_Session_request; simpl.
    rewrite Hi, lookup_insert_eq, !lookup_insert_ne by discriminate.
    destruct (requests_Session_request m); simpl.
    - destruct (ssl_SSLContext_wrap_socket m); reflexivity.
    - destruct (ssl_SSLContext_wrap_socket m); reflexivity. }
  simpl. unfold restored.
  rewrite !lookup_insert_ne by congruence. reflexivity.
Qed.

(** The restore loop, whatever the order in which the items come. *)
Lemma restore_loop o m : map_fold restore_item m o = restored o m.
Proof.
  apply (map_fold_weak_ind (fun r o => r = restored o m)).
  - symmetry. apply restored_empty.
  - intros i x o' r Hi ->. apply restore_item_restored, Hi.
Qed.

Lemma allow_network_fst st : fst (allow_network st) = Ok tt.
Proof.
  unfold allow_network, bind, gets, modify, ret. simpl.
  destruct (_BLOCKED st); reflexivity.
Qed.

Lemma allow_network_noop st : _BLOCKED st = false -> allow_network st = (Ok tt, st).
Proof. intros H. unfold allow_network, bind, gets. simpl. rewrite H. reflexivity. Qed.

Lemma allow_network_blocked st :
  _BLOCKED st = true ->
  allow_network st =
  (Ok tt, mkState ∅ false (_WHITELIST st) (_DEBUG st)
            (restored (_ORIG st) (modules st)) (stdout st)).
Proof.
  intros H. unfold allow_network, bind, gets, modify. simpl. rewrite H. simpl.
  rewrite restore_loop. reflexivity.
Qed.

Lemma allow_network_BLOCKED st : _BLOCKED (snd (allow_network st)) = false.
Proof.
  destruct (_BLOCKED st) eqn:E.
  - rewrite allow_network_blocked by exact E. reflexivity.
  - rewrite allow_network_noop by exact E. exact E.
Qed.

Lemma allow_network_WHITELIST st :
  _WHITELIST (snd (allow_network st)) = _WHITELIST st.
Proof.
  destruct (_BLOCKED st) eqn:E.
  - rewrite allow_network_blocked by exact E. reflexivity.
  - rewrite allow_network_noop by exact E. reflexivity.
Qed.

Lemma restored_attribute c o m :
  attribute c (restored o m) =
  match attribute c m, o !! key c with
  | Some _, Some v => Some v
  | cur, _ => cur
  end.
Proof.
  destruct c; simpl; try (destruct (o !! _); reflexivity).
Qed.

(** ** Raw socket construction *)

(** C5 (as the code behaves): [block_network] saves [socket.socket] in
    [_ORIG] but never assigns [_BlockedSocket] to it: the attribute is the
    same before and after, and constructing a raw socket while enforcement
    is enabled reaches the original constructor instead of raising. *)
Theorem raw_socket_not_blocked :
  (forall st,
     socket_socket (modules (snd (block_network st))) = socket_socket (modules st))
  /\ _BLOCKED enforcing = true
  /\ _ORIG enforcing !! "socket.socket" = Some (Original "socket.socket")
  /\ fst (call_socket_socket tt enforcing) = Ok (Call (Original "socket.socket") tt).
Proof.
  split; [exact block_network_socket_socket|].
  repeat split; vm_compute; reflexivity.
Qed.

(** ** Enable and disable *)

(** C7: [block_network] and [allow_network] are idempotent: from any state
    the second of two calls in a row returns without changing anything, so
    two calls leave the same state (flag, saved originals, module
    attributes and all) as one. *)
Theorem enable_disable_idempotent st :
  (block_network (snd (block_network st)) = (Ok tt, snd (block_network st))
   /\ (block_network ;; block_network) st = block_network st)
  /\ (allow_network (snd (allow_network st)) = (Ok tt, snd (allow_network st))
      /\ (allow_network ;; allow_network) st = allow_network st).
Proof.
  assert (Hb : block_network (snd (block_network st)) = (Ok tt, snd (block_network st)))
    by apply block_network_noop, block_network_BLOCKED.
  assert (Ha : allow_network (snd (allow_network st)) = (Ok tt, snd (allow_network st)))
    by apply allow_network_noop, allow_network_BLOCKED.
  split; (split; [assumption|]); unfold bind.
  - pose proof (block_network_fst st) as Hf.
    destruct (block_network st) as [r st']; simpl in *. subst r. exact Hb.
  - pose proof (allow_network_fst st) as Hf.
    destruct (allow_network st) as [r st']; simpl in *. subst r. exact Ha.
Qed.

(** C9: [allow_network] never raises, in any state.  When enforcement is
    on it empties [_ORIG], clears the flag, and for every category: if no
    original is saved under the category's key, its attribute is left as
    it is; if one is saved (and the attribute's owner exists), the
    attribute is set back to it. *)
Theorem allow_network_never_fails st :
  fst (allow_network st) = Ok tt
  /\ (_BLOCKED st = true ->
      _ORIG (snd (allow_network st)) = ∅
      /\ _BLOCKED (snd (allow_network st)) = false
      /\ forall c,
          (_ORIG st !! key c = None ->
           attribute c (modules (snd (allow_network st))) = attribute c (modules st))
          /\ (forall v, _ORIG st !! key c = Some v ->
              is_Some (attribute c (modules st)) ->
              attribute c (modules (snd (allow_network st))) = Some v)).
Proof.
  split; [apply allow_network_fst|].
  intros Hb. rewrite allow_network_blocked by exact Hb. simpl.
  split; [reflexivity|]. split; [reflexivity|].
  intros c. rewrite restored_attribute. split.
  - intros ->. destruct (attribute c (modules st)); reflexivity.
  - intros v -> [cur ->]. reflexivity.
Qed.

Lemma allow_network_never_fails_witness :
  _ORIG (snd (allow_network enforcing)) = ∅
  /\ attribute Ssl_wrap_socket (modules (snd (allow_network enforcing)))
     = attribute Ssl_wrap_socket (modules enforcing)
  /\ attribute Create_connection (modules (snd (allow_network enforcing)))
     = Some (Original "socket.create_connection").
Proof.
  destruct (proj2 (allow_network_never_fails enforcing) eq_refl) as (H1 & _ & H3).
  split; [exact H1|]. split.
  - apply (proj1 (H3 Ssl_wrap_socket)). reflexivity.
  - apply (proj2 (H3 Create_connection)); [reflexivity | eexists; reflexivity].
Defined.

(** ** The temporary-allow guard *)

Lemma _log_BLOCKED msg st : _BLOCKED (snd (_log msg st)) = _BLOCKED st.
Proof. rewrite _log_snd. reflexivity. Qed.

(** The guard, unfolded: [st_in] is the state in which the block starts. *)
Lemma allow_temporary_unfold {A} (body : M A) (st : State) :
  let st_in := snd (allow_network (snd (_log "Entering allow_temporary context" st))) in
  allow_temporary body st =
  if _BLOCKED st
  then (fst (body st_in), snd (block_network (snd (body st_in))))
  else body st_in.
Proof.
  intros st_in. subst st_in.
  pose proof (_log_BLOCKED "Entering allow_temporary context" st) as HL.
  unfold allow_temporary, bind, is_blocked, gets, try_finally.
  rewrite (_log_eq _ st). simpl. rewrite HL.
  destruct (_BLOCKED st) eqn:Eb.
  - pose proof (allow_network_fst (snd (_log "Entering allow_temporary context" st)))
      as Hf.
    destruct (allow_network _) as [r a]; simpl in *. subst r.
    destruct (body a) as [rb b]; simpl.
    pose proof (block_network_fst b) as Hf.
    destruct (block_network b) as [r c]; simpl in *. subst r. reflexivity.
  - rewrite allow_network_noop by exact HL. simpl.
    destruct (body _); reflexivity.
Qed.

(** C6: [allow_temporary] around any block.  The block runs with
    enforcement off and its outcome -- a value or an exception -- is the
    outcome of the [with] statement.  If enforcement was on at entry,
    [block_network] runs after the block on either way out and enforcement
    is on at exit.  If it was off at entry the guard does nothing after the
    block: the state at exit is the state the block left.  So for a block
    that does not itself switch enforcement, the flag at exit equals the
    flag at entry. *)
Theorem allow_temporary_restores {A} (body : M A) (st : State) :
  let st_in := snd (allow_network (snd (_log "Entering allow_temporary context" st))) in
  let out := allow_temporary body st in
  _BLOCKED st_in = false
  /\ fst out = fst (body st_in)
  /\ (_BLOCKED st = true ->
      snd out = snd (block_network (snd (body st_in))) /\ _BLOCKED (snd out) = true)
  /\ (_BLOCKED st = false -> snd out = snd (body st_in))
  /\ ((forall s, _BLOCKED (snd (body s)) = _BLOCKED s) ->
      _BLOCKED (snd out) = _BLOCKED st).
Proof.
  intros st_in out.
  assert (Hin : _BLOCKED st_in = false) by apply allow_network_BLOCKED.
  split; [exact Hin|].
  subst out. rewrite allow_temporary_unfold. fold st_in.
  destruct (_BLOCKED st) eqn:Eb; simpl.
  - split; [reflexivity|]. split.
    + intros _. split; [reflexivity | apply block_network_BLOCKED].
    + split; [discriminate|]. intros _. apply block_network_BLOCKED.
  - split; [reflexivity|]. split; [discriminate|]. split; [reflexivity|].
    intros Hbody. rewrite Hbody. exact Hin.
Qed.

Lemma allow_temporary_restores_witness :
  (fst (allow_temporary (@raise unit (Exception "boom")) enforcing)
     = Raise (Exception "boom")
   /\ _BLOCKED (snd (allow_temporary (@raise unit (Exception "boom")) enforcing))
      = _BLOCKED enforcing)
  /\ (fst (allow_temporary (ret 3) fresh) = Ok 3
      /\ _BLOCKED (snd (allow_temporary (ret 3) fresh)) = _BLOCKED fresh).
Proof.
  split.
  - destruct (allow_temporary_restores (@raise unit (Exception "boom")) enforcing)
      as (_ & H2 & H3 & _ & H5).
    split; [exact H2|]. apply H5. intros s. reflexivity.
  - destruct (allow_temporary_restores (ret 3) fresh) as (_ & H2 & _ & H4 & H5).
    split; [exact H2|]. apply H5. intros s. reflexivity.
Defined.

(** ** The saved-originals invariant *)

Lemma inv_log msg : preserves originals_iff_blocked (_log msg).
Proof. intros st H. rewrite _log_snd. exact H. Qed.

Lemma inv_block_network : preserves originals_iff_blocked block_network.
Proof.
  intros st H. destruct (_BLOCKED st) eqn:E.
  - rewrite block_network_noop by exact E. exact H.
  - split; intros _.
    + apply block_network_BLOCKED.
    + apply block_network_ORIG_nonempty, E.
Qed.

Lemma inv_allow_network : preserves originals_iff_blocked allow_network.
Proof.
  intros st H. destruct (_BLOCKED st) eqn:E.
  - rewrite allow_network_blocked by exact E. split; simpl.
    + intros Hne. contradiction Hne. reflexivity.
    + discriminate.
  - rewrite allow_network_noop by exact E. exact H.
Qed.

Lemma inv_set_debug b : preserves originals_iff_blocked (set_debug b).
Proof. intros st H. exact H. Qed.

Lemma inv_add_whitelist h : preserves originals_iff_blocked (add_whitelist h).
Proof.
  unfold add_whitelist. apply preserves_bind; [|intros _; apply inv_log].
  intros st H. exact H.
Qed.

Lemma inv_remove_whitelist h : preserves originals_iff_blocked (remove_whitelist h).
Proof.
  unfold remove_whitelist. apply preserves_bind; [|intros _; apply inv_log].
  intros st H. exact H.
Qed.

Lemma inv_exec p : preserves originals_iff_blocked (exec p).
Proof.
  apply preserves_exec.
  - exact inv_log.
  - exact inv_block_network.
  - exact inv_allow_network.
  - exact inv_set_debug.
  - exact inv_add_whitelist.
  - exact inv_remove_whitelist.
Qed.

(** C8: [_ORIG] is non-empty if and only if [_BLOCKED] is set.  This holds
    for the globals as the module defines them, and every public operation
    keeps it: [block_network], [allow_network], [is_blocked], [set_debug],
    [add_whitelist], [remove_whitelist], the [allow_temporary] guard around
    any such code (whether or not it raises), any sequence of these, and
    the blocking done at import time. *)
Theorem originals_nonempty_iff_blocked :
  (forall debug m, originals_iff_blocked (initial debug m))
  /\ (forall noauto st,
        originals_iff_blocked st -> originals_iff_blocked (snd (on_import noauto st)))
  /\ (forall p st,
        originals_iff_blocked st -> originals_iff_blocked (snd (exec p st))).
Proof.
  split; [|split].
  - intros debug m. split; simpl; [intros H; contradiction H; reflexivity | discriminate].
  - intros noauto. unfold on_import.
    apply preserves_if; [apply preserves_ret|].
    apply preserves_try_pass, preserves_bind;
      [apply inv_block_network | intros _; apply inv_log].
  - exact inv_exec.
Qed.

Lemma originals_nonempty_iff_blocked_witness :
  originals_iff_blocked
    (snd (exec (Seq (Add_whitelist "example.com")
                  (With_allow_temporary (Raise_exn (Exception "boom"))))
            (snd (on_import "" (initial "1" (stdlib false)))))).
Proof.
  apply (proj2 (proj2 originals_nonempty_iff_blocked)).
  apply (proj1 (proj2 originals_nonempty_iff_blocked)).
  apply (proj1 originals_nonempty_iff_blocked).
Defined.

(** ** The whitelist is outside the lifecycle *)

Lemma _log_WHITELIST msg st : _WHITELIST (snd (_log msg st)) = _WHITELIST st.
Proof. rewrite _log_snd. reflexivity. Qed.

Lemma whitelist_exec (W : gset string) p :
  lifecycle_only p = true -> preserves (fun st => _WHITELIST st = W) (exec p).
Proof.
  induction p as [| | |b|h|h|e|p IHp q IHq|body IH|body IH]; simpl; intros Hp;
    try discriminate Hp.
  - intros st <-. apply block_network_WHITELIST.
  - intros st <-. apply allow_network_WHITELIST.
  - intros st H. exact H.
  - intros st H. exact H.
  - intros st H. exact H.
  - apply andb_true_iff in Hp as [Hp Hq].
    apply preserves_bind; [apply IHp, Hp | intros _; apply IHq, Hq].
  - apply preserves_allow_temporary.
    + intros msg st <-. apply _log_WHITELIST.
    + intros st <-. apply block_network_WHITELIST.
    + intros st <-. apply allow_network_WHITELIST.
    + apply IH, Hp.
  - apply preserves_try_pass, IH, Hp.
Qed.

(** C10: [block_network] and [allow_network] leave the whitelist as it
    is.  The [allow_temporary] guard does not touch it either: the block
    starts with the whitelist the guard was entered with, and the whitelist
    at exit is the one the block left (so entries added inside the block
    stay).  Hence after any program made of [block_network],
    [allow_network] and [allow_temporary] blocks -- with exceptions raised
    and caught on the way -- the whitelist is the same set as before. *)
Theorem lifecycle_keeps_whitelist :
  (forall st, _WHITELIST (snd (block_network st)) = _WHITELIST st)
  /\ (forall st, _WHITELIST (snd (allow_network st)) = _WHITELIST st)
  /\ (forall A (body : M A) st,
        let st_in :=
          snd (allow_network (snd (_log "Entering allow_temporary context" st))) in
        _WHITELIST st_in = _WHITELIST st
        /\ _WHITELIST (snd (allow_temporary body st)) = _WHITELIST (snd (body st_in)))
  /\ (forall p st,
        lifecycle_only p = true -> _WHITELIST (snd (exec p st)) = _WHITELIST st).
Proof.
  split; [exact block_network_WHITELIST|].
  split; [exact allow_network_WHITELIST|].
  split.
  - intros A body st st_in. split.
    + subst st_in. rewrite allow_network_WHITELIST. apply _log_WHITELIST.
    + rewrite allow_temporary_unfold. fold st_in.
      destruct (_BLOCKED st); simpl; [apply block_network_WHITELIST | reflexivity].
  - intros p st Hp. apply (whitelist_exec (_WHITELIST st) p Hp st). reflexivity.
Qed.

Lemma lifecycle_keeps_whitelist_witness :
  _WHITELIST
    (snd (exec (Seq Allow_network
                  (Seq (Try_except_pass
                          (With_allow_temporary
                             (Seq Block_network (Raise_exn (Exception "boom")))))
                       Block_network))
            (with_WHITELIST {["example.com"]} enforcing)))
  = {["example.com"]}.
Proof.
  apply (proj2 (proj2 (proj2 lifecycle_keeps_whitelist))). reflexivity.
Defined.

(** ** The connect-to-address hook *)

Lemma hook_log msg : preserves hook_in_place (_log msg).
Proof. intros st H. rewrite _log_snd. exact H. Qed.

Lemma hook_block_network : preserves hook_in_place block_network.
Proof.
  intros st H. destruct (_BLOCKED st) eqn:E.
  - rewrite block_network_noop by exact E. exact H.
  - intros _. destruct (block_network_create_connection st E) as [H1 H2].
    split; [exact H1|]. rewrite H2. eexists. reflexivity.
Qed.

Lemma hook_allow_network : preserves hook_in_place allow_network.
Proof.
  intros st _ Hb. rewrite allow_network_BLOCKED in Hb. discriminate Hb.
Qed.

Lemma hook_add_whitelist h : preserves hook_in_place (add_whitelist h).
Proof.
  unfold add_whitelist. apply preserves_bind; [|intros _; apply hook_log].
  intros st H. exact H.
Qed.

Lemma hook_remove_whitelist h : preserves hook_in_place (remove_whitelist h).
Proof.
  unfold remove_whitelist. apply preserves_bind; [|intros _; apply hook_log].
  intros st H. exact H.
Qed.

(** Every state the public API can produce from the module's initial
    globals has the hook in place whenever enforcement is on. *)
Lemma hook_in_place_reachable debug m noauto p :
  hook_in_place (snd (exec p (snd (on_import noauto (initial debug m))))).
Proof.
  apply preserves_exec.
  - exact hook_log.
  - exact hook_block_network.
  - exact hook_allow_network.
  - intros b st H. exact H.
  - exact hook_add_whitelist.
  - exact hook_remove_whitelist.
  - unfold on_import.
    apply preserves_if; [apply preserves_ret | |].
    + apply preserves_try_pass, preserves_bind;
        [apply hook_block_network | intros _; apply hook_log].
    + intros Hb. discriminate Hb.
Qed.

Lemma _host_allowed_run host st :
  exists out,
    _host_allowed (Some host) st =
    (Ok (PyStr.truthy host && decision (_WHITELIST st) host), with_stdout out st).
Proof.
  destruct (_host_allowed_frame (Some host) st) as [out Hout].
  pose proof (_host_allowed_fst host st) as Hf.
  exists out. destruct (_host_allowed (Some host) st) as [r st']; simpl in *.
  subst. reflexivity.
Qed.

Lemma decision_false (W : gset string) host :
  ~ (exists w, w ∈ W /\ covers w (normalize host)) ->
  in_loopback (normalize host) = false ->
  decision W host = false.
Proof.
  intros Hw Hl. unfold decision. rewrite Hl, orb_false_r.
  apply not_true_is_false. rewrite existsb_entry_matches. exact Hw.
Qed.

(** The replacement, run on a state whose [_ORIG] holds the original. *)
Lemma _blocked_create_connection_run host port timeout source_address st orig :
  _ORIG st !! "socket.create_connection" = Some orig ->
  exists out,
    _blocked_create_connection (Some host, port) timeout source_address st =
    (if PyStr.truthy host && decision (_WHITELIST st) host
     then Ok (Call orig ((Some host, port), timeout, source_address))
     else Raise (NetworkBlockedError
                   ("Attempt to connect to " ++ host ++ ":" ++ pretty port
                    ++ " blocked by python_blackbox")),
     with_stdout out st).
Proof.
  intros Ho. destruct (_host_allowed_run host st) as [out Hrun].
  exists out. unfold _blocked_create_connection, bind. rewrite Hrun.
  destruct (PyStr.truthy host && decision (_WHITELIST st) host).
  - unfold getitem_ORIG. simpl. rewrite Ho. reflexivity.
  - reflexivity.
Qed.

(** C1: in a state with enforcement on (and the hook in place, as in every
    state the API produces), whatever the whitelist: a call of
    [socket.create_connection] for a host that, as the matcher compares it,
    is covered by no whitelist entry and is not a loopback name raises
    [NetworkBlockedError] -- no call of the saved original results, and
    nothing but the debug output changes; this is so for "example.com"
    unless the whitelist covers it.  A call for "127.0.0.1" is handed to the
    saved original with the arguments it was given. *)
Theorem create_connection_denied_or_delegated
    (st : State) (port : Z) (timeout : option Z) (source_address : option (string * Z)) :
  _BLOCKED st = true -> hook_in_place st ->
  (forall host,
      ~ (exists w, w ∈ _WHITELIST st /\ covers w (normalize host)) ->
      in_loopback (normalize host) = false ->
      exists out,
        call_socket_create_connection (Some host, port) timeout source_address st =
        (Raise (NetworkBlockedError
                  ("Attempt to connect to " ++ host ++ ":" ++ pretty port
                   ++ " blocked by python_blackbox")),
         with_stdout out st))
  /\ (~ (exists w, w ∈ _WHITELIST st /\ covers w "example.com") ->
      fst (call_socket_create_connection (Some "example.com", port)
             timeout source_address st) =
      Raise (NetworkBlockedError
               ("Attempt to connect to example.com:" ++ pretty port
                ++ " blocked by python_blackbox")))
  /\ (exists orig,
        _ORIG st !! "socket.create_connection" = Some orig
        /\ fst (call_socket_create_connection (Some "127.0.0.1", port)
                  timeout source_address st) =
           Ok (Call orig ((Some "127.0.0.1", port), timeout, source_address))).
Proof.
  intros Hb Hhook. destruct (Hhook Hb) as [Hattr [orig Ho]].
  assert (Hcall : forall host,
             call_socket_create_connection (Some host, port) timeout source_address st
             = _blocked_create_connection (Some host, port) timeout source_address st).
  { intros host. unfold call_socket_create_connection, bind, getattr, gets.
    simpl. rewrite Hattr. reflexivity. }
  assert (Hdeny : forall host,
             ~ (exists w, w ∈ _WHITELIST st /\ covers w (normalize host)) ->
             in_loopback (normalize host) = false ->
             exists out,
               call_socket_create_connection (Some host, port) timeout source_address st =
               (Raise (NetworkBlockedError
                         ("Attempt to connect to " ++ host ++ ":" ++ pretty port
                          ++ " blocked by python_blackbox")),
                with_stdout out st)).
  { intros host Hw Hl. rewrite Hcall.
    destruct (_blocked_create_connection_run host port timeout source_address st orig Ho)
      as [out Hrun].
    exists out. rewrite Hrun, (decision_false _ host Hw Hl), andb_false_r. reflexivity. }
  split; [exact Hdeny|]. split.
  - intros Hw.
    assert (Hn : normalize "example.com" = "example.com")
      by (compared_form "example.com"; reflexivity).
    destruct (Hdeny "example.com") as [out ->]; rewrite ?Hn; [exact Hw | | ];
      reflexivity.
  - exists orig. split; [exact Ho|]. rewrite Hcall.
    destruct (_blocked_create_connection_run "127.0.0.1" port timeout source_address
                st orig Ho) as [out ->].
    simpl. unfold decision. compared_form "127.0.0.1".
    replace (in_loopback "127.0.0.1") with true by reflexivity.
    rewrite orb_true_r. reflexivity.
Qed.


(** * Further properties of the module *)

(** ** The matcher *)

Lemma has_colon_before_colon s : PyStr.has_colon (PyStr.before_colon s) = false.
Proof.
  induction s as [|c s IH]; simpl; [reflexivity|].
  destruct (Ascii.eqb c PyStr.colon) eqn:E; simpl; [reflexivity|].
  rewrite E. exact IH.
Qed.

Lemma truthy_true_iff s : PyStr.truthy s = true <-> s <> "".
Proof. destruct s; simpl; split; congruence. Qed.

Lemma in_loopback_iff h :
  in_loopback h = true <-> h = "localhost" \/ h = "127.0.0.1" \/ h = "::1".
Proof.
  unfold in_loopback. rewrite !orb_true_iff, !String.eqb_eq. tauto.
Qed.

(** X1: the matcher's answer, for every whitelist: a host is allowed
    exactly when it is non-empty and its compared form (cut at the first
    colon, then lower-cased by [str.lower]) equals a whitelist entry, ends
    in a dot followed by one, or is one of the three names of the tuple. *)
Theorem host_allowed_iff (st : State) (host : string) :
  fst (_host_allowed (Some host) st) = Ok true <->
  host <> ""
  /\ ((exists w, w ∈ _WHITELIST st /\ covers w (normalize host))
      \/ normalize host = "localhost" \/ normalize host = "127.0.0.1"
      \/ normalize host = "::1").
Proof.
  rewrite _host_allowed_fst. unfold decision.
  rewrite <- truthy_true_iff, <- in_loopback_iff, <- existsb_entry_matches.
  rewrite <- orb_true_iff, <- andb_true_iff.
  split; [intros H; injection H as H; exact H | intros ->; reflexivity].
Qed.

(** X2: a port suffix is ignored.  For a non-empty host [h] without a
    colon, the matcher treats [h ++ ":" ++ rest] exactly as it treats [h]:
    same answer, same debug line, whatever follows the colon. *)
Theorem port_suffix_ignored (st : State) (h rest : string) :
  h <> "" -> PyStr.has_colon h = false ->
  _host_allowed (Some (h ++ ":" ++ rest)) st = _host_allowed (Some h) st.
Proof.
  intros Hne Hc. apply _host_allowed_ext.
  - destruct h; [congruence | reflexivity].
  - unfold normalize.
    rewrite has_colon_app_port, before_colon_app_port, Hc by exact Hc. reflexivity.
Qed.

(** X3: the matcher is monotone in the whitelist: a host allowed under a
    whitelist is allowed under every larger one. *)
Theorem host_allowed_monotone (st st' : State) (host : option string) :
  _WHITELIST st ⊆ _WHITELIST st' ->
  fst (_host_allowed host st) = Ok true ->
  fst (_host_allowed host st') = Ok true.
Proof.
  intros Hsub. destruct host as [host|]; [|intros H; exact H].
  rewrite !_host_allowed_fst. unfold decision. intros H.
  injection H as H. apply andb_true_iff in H as [Ht H]. rewrite Ht. simpl.
  apply orb_true_iff in H as [H|H].
  - apply existsb_entry_matches in H as (w & Hin & Hc).
    assert (H' : existsb (entry_matches (normalize host)) (elements (_WHITELIST st'))
                 = true).
    { apply existsb_entry_matches. exists w. split; [apply Hsub, Hin | exact Hc]. }
    rewrite H'. reflexivity.
  - rewrite H, orb_true_r. reflexivity.
Qed.

Lemma ascii_lower_app_fixed p w :
  PyStr.ascii_lower (p ++ w) = p ++ w -> PyStr.ascii_lower w = w.
Proof.
  induction p as [|c p IH]; [intros H; exact H|].
  rewrite app_cons. simpl. intros H. injection H as _ H. apply IH, H.
Qed.

Lemma has_colon_app_r p w :
  PyStr.has_colon w = true -> PyStr.has_colon (p ++ w) = true.
Proof.
  intros Hw. induction p as [|c p IH]; [exact Hw|].
  rewrite app_cons. simpl. rewrite IH. destruct (Ascii.eqb c PyStr.colon); reflexivity.
Qed.

(** An entry that covers the compared form of an ASCII host is itself
    ASCII, without a colon and without any of the letters [A-Z]. *)
Lemma covers_normalize_ascii w h :
  PyStr.is_ascii h = true ->
  covers w (normalize h) ->
  PyStr.has_colon w = false /\ PyStr.ascii_lower w = w /\ PyStr.is_ascii w = true.
Proof.
  intros Ha. rewrite (normalize_ascii h Ha).
  set (x := if PyStr.has_colon h then PyStr.before_colon h else h).
  assert (Hx : PyStr.has_colon x = false /\ PyStr.is_ascii x = true).
  { subst x. destruct (PyStr.has_colon h) eqn:E.
    - split; [apply has_colon_before_colon | apply is_ascii_before_colon, Ha].
    - split; [exact E | exact Ha]. }
  destruct Hx as [Hxc Hxa].
  assert (Hc : PyStr.has_colon (PyStr.ascii_lower x) = false)
    by (rewrite has_colon_ascii_lower; exact Hxc).
  assert (Hi : PyStr.is_ascii (PyStr.ascii_lower x) = true)
    by (rewrite is_ascii_ascii_lower; exact Hxa).
  pose proof (ascii_lower_idem x) as Hl.
  intros [Heq | [p Hp]].
  - rewrite <- Heq. repeat split; assumption.
  - rewrite Hp in Hc, Hl, Hi. repeat split.
    + destruct (PyStr.has_colon w) eqn:E; [|reflexivity].
      rewrite (has_colon_app_r p ("." ++ w)) in Hc; [discriminate Hc|].
      apply (has_colon_app_r "." w), E.
    + apply ascii_lower_app_fixed in Hl. apply (ascii_lower_app_fixed "." w), Hl.
    + apply is_ascii_app_r in Hi. apply (is_ascii_app_r "." w), Hi.
Qed.

Lemma add_whitelist_WHITELIST w st :
  _WHITELIST (snd (add_whitelist w st)) = {[w]} ∪ _WHITELIST st.
Proof.
  unfold add_whitelist, bind, modify. simpl. rewrite _log_WHITELIST. reflexivity.
Qed.

Lemma remove_whitelist_WHITELIST w st :
  _WHITELIST (snd (remove_whitelist w st)) = _WHITELIST st ∖ {[w]}.
Proof.
  unfold remove_whitelist, bind, modify. simpl. rewrite _log_WHITELIST. reflexivity.
Qed.

(** X4: for hosts made of ASCII characters, a whitelist entry that
    contains a colon, one of the letters [A-Z] or a character outside ASCII
    never matches: the host is cut at its colon and lower-cased before it
    is compared with the entries as they were added, so adding such an
    entry -- "example.com:443", "Example.com" -- changes no answer. *)
Theorem entry_with_colon_or_upper_case_is_dead
    (st : State) (w host : string) :
  PyStr.is_ascii host = true ->
  PyStr.has_colon w = true \/ PyStr.ascii_lower w <> w \/ PyStr.is_ascii w = false ->
  fst (_host_allowed (Some host) (snd (add_whitelist w st)))
  = fst (_host_allowed (Some host) st).
Proof.
  intros Ha Hdead.
  rewrite !_host_allowed_fst, add_whitelist_WHITELIST. unfold decision.
  f_equal. f_equal. f_equal. apply eq_true_iff_eq.
  rewrite !existsb_entry_matches. split.
  - intros (w' & Hin & Hc). apply elem_of_union in Hin as [Hin|Hin].
    + apply elem_of_singleton in Hin. subst w'.
      destruct (covers_normalize_ascii w host Ha Hc) as (H1 & H2 & H3).
      destruct Hdead as [Hd|[Hd|Hd]]; [congruence | contradiction | congruence].
    + exists w'. split; assumption.
  - intros (w' & Hin & Hc). exists w'. split; [|exact Hc].
    apply elem_of_union_r, Hin.
Qed.

(** X5: what the matcher does to the state.  With debug off it changes
    nothing.  With debug on, a non-empty host makes it append exactly one
    line to the output, naming the compared host, and nothing else changes;
    a missing or empty host is refused without a line. *)
Theorem host_allowed_effect (st : State) :
  (forall host, _DEBUG st = false -> snd (_host_allowed host st) = st)
  /\ snd (_host_allowed None st) = st
  /\ snd (_host_allowed (Some "") st) = st
  /\ (forall host,
        _DEBUG st = true -> host <> "" ->
        exists what,
          snd (_host_allowed (Some host) st) =
          with_stdout
            (stdout st ++ ["[python_blackbox DEBUG] " ++ what ++ normalize host]) st
          /\ (what = "Allowing access to whitelisted host "
              \/ what = "Allowing access to localhost "
              \/ what = "Blocking host ")).
Proof.
  assert (Hid : forall o, o = stdout st -> with_stdout o st = st).
  { intros o ->. destruct st; reflexivity. }
  split; [|split; [reflexivity | split; [reflexivity|]]].
  - intros host Hd. destruct host as [host|]; [|reflexivity].
    unfold _host_allowed. fold (normalize host).
    destruct (PyStr.truthy host); [|reflexivity]. simpl.
    unfold bind, gets, ret; simpl.
    destruct (existsb _ _); [|destruct (in_loopback _)];
      rewrite (_log_eq _ st); simpl; rewrite _log_snd, Hd; apply Hid; reflexivity.
  - intros host Hd Hne.
    unfold _host_allowed. fold (normalize host).
    destruct host as [|c host]; [congruence|]. simpl PyStr.truthy. simpl negb.
    cbv iota. unfold bind, gets, ret; simpl fst; simpl snd.
    destruct (existsb _ _); [|destruct (in_loopback _)];
      rewrite (_log_eq _ st); simpl; rewrite _log_snd, Hd; eexists;
      (split; [reflexivity|]); auto.
Qed.

(** ** Enable, disable and the states in between *)

Lemma block_network_fresh st :
  _BLOCKED st = false -> _ORIG st = ∅ ->
  snd (block_network st) =
  mkState (saved (modules st)) true (_WHITELIST st) (_DEBUG st)
    (patched (modules st)) (stdout st).
Proof.
  destruct st as [o b W d [a1 a2 a3 a4 a5 a6] out]. simpl.
  intros -> ->. destruct a6; reflexivity.
Qed.

Lemma restored_saved_patched m : restored (saved m) (patched m) = m.
Proof.
  destruct m as [a b c d e [f|]]; unfold restored, saved, patched; simpl;
    rewrite ?lookup_insert_eq;
    repeat (rewrite lookup_insert_ne by discriminate; rewrite ?lookup_insert_eq);
    rewrite ?lookup_empty; simpl; destruct e; reflexivity.
Qed.

(** X6: enabling and then disabling is a round trip.  From a state with
    enforcement off and nothing saved, [block_network()] followed by
    [allow_network()] gives back the very same state: every module
    attribute holds what it held before, [_ORIG] is empty again. *)
Theorem block_then_allow_round_trip (st : State) :
  _BLOCKED st = false -> _ORIG st = ∅ ->
  snd (allow_network (snd (block_network st))) = st.
Proof.
  intros Hb Ho. rewrite (block_network_fresh st Hb Ho).
  rewrite allow_network_blocked by reflexivity. simpl.
  rewrite restored_saved_patched. destruct st; simpl in *. subst. reflexivity.
Qed.

Lemma block_then_allow_round_trip_witness :
  snd (allow_network (snd (block_network fresh))) = fresh.
Proof. apply block_then_allow_round_trip; reflexivity. Defined.

Lemma shape_log m0 msg : preserves (lifecycle_inv m0) (_log msg).
Proof. intros st H. rewrite _log_snd. exact H. Qed.

Lemma shape_block_network m0 : preserves (lifecycle_inv m0) block_network.
Proof.
  intros st H. unfold lifecycle_inv in H. destruct (_BLOCKED st) eqn:E.
  - rewrite block_network_noop by exact E. change (lifecycle_inv m0 st).
    unfold lifecycle_inv. rewrite E. exact H.
  - destruct H as [Ho Hm]. rewrite (block_network_fresh st E Ho).
    unfold lifecycle_inv. simpl. rewrite Hm. split; reflexivity.
Qed.

Lemma shape_allow_network m0 : preserves (lifecycle_inv m0) allow_network.
Proof.
  intros st H. unfold lifecycle_inv in H. destruct (_BLOCKED st) eqn:E.
  - destruct H as [Ho Hm]. rewrite allow_network_blocked by exact E.
    unfold lifecycle_inv. simpl. rewrite Ho, Hm, restored_saved_patched.
    split; reflexivity.
  - rewrite allow_network_noop by exact E. change (lifecycle_inv m0 st).
    unfold lifecycle_inv. rewrite E. exact H.
Qed.

Lemma shape_add_whitelist m0 h : preserves (lifecycle_inv m0) (add_whitelist h).
Proof.
  unfold add_whitelist. apply preserves_bind; [|intros _; apply shape_log].
  intros st H. exact H.
Qed.

Lemma shape_remove_whitelist m0 h : preserves (lifecycle_inv m0) (remove_whitelist h).
Proof.
  unfold remove_whitelist. apply preserves_bind; [|intros _; apply shape_log].
  intros st H. exact H.
Qed.

Lemma shape_reachable debug m0 noauto p :
  lifecycle_inv m0 (snd (exec p (snd (on_import noauto (initial debug m0))))).
Proof.
  apply preserves_exec.
  - apply shape_log.
  - apply shape_block_network.
  - apply shape_allow_network.
  - intros b st H. exact H.
  - apply shape_add_whitelist.
  - apply shape_remove_whitelist.
  - unfold on_import.
    apply preserves_if; [apply preserves_ret | |].
    + apply preserves_try_pass, preserves_bind;
        [apply shape_block_network | intros _; apply shape_log].
    + split; reflexivity.
Qed.

(** X7: the state has only two shapes.  After the module is imported over
    the attributes [m0] and any program over its public API has run --
    exceptions, guards and all -- either enforcement is off, [_ORIG] is
    empty and every attribute is as in [m0], or enforcement is on, [_ORIG]
    holds exactly the originals of [m0] ([socket.socket],
    [socket.create_connection], [urlopen], [HTTPConnection.connect], and
    [Session.request] when [requests] is there) and the replacements are
    in place. *)
Theorem reachable_state_shape
    (PYTHON_BLACKBOX_DEBUG PYTHON_BLACKBOX_NOAUTO : string) (m0 : Modules) (p : prog) :
  let st := snd (exec p (snd (on_import PYTHON_BLACKBOX_NOAUTO
                                (initial PYTHON_BLACKBOX_DEBUG m0)))) in
  (_BLOCKED st = false /\ _ORIG st = ∅ /\ modules st = m0)
  \/ (_BLOCKED st = true /\ _ORIG st = saved m0 /\ modules st = patched m0).
Proof.
  intros st.
  pose proof (shape_reachable PYTHON_BLACKBOX_DEBUG m0 PYTHON_BLACKBOX_NOAUTO p) as H.
  fold st in H. unfold lifecycle_inv in H.
  destruct (_BLOCKED st); [right | left]; (split; [reflexivity | exact H]).
Qed.

Lemma saved_no_ssl m0 : saved m0 !! "ssl.SSLContext.wrap_socket" = None.
Proof.
  unfold saved. destruct (requests_Session_request m0);
    repeat (rewrite lookup_insert_ne by discriminate); apply lookup_empty.
Qed.

(** X8: [ssl.SSLContext.wrap_socket] is never patched and never saved.  In
    every state the public API can produce the attribute is the one the
    interpreter started with and [_ORIG] has no entry under
    "ssl.SSLContext.wrap_socket", so the branch of [allow_network] that
    restores it never runs. *)
Theorem ssl_wrap_socket_never_patched
    (PYTHON_BLACKBOX_DEBUG PYTHON_BLACKBOX_NOAUTO : string) (m0 : Modules) (p : prog) :
  let st := snd (exec p (snd (on_import PYTHON_BLACKBOX_NOAUTO
                                (initial PYTHON_BLACKBOX_DEBUG m0)))) in
  ssl_SSLContext_wrap_socket (modules st) = ssl_SSLContext_wrap_socket m0
  /\ _ORIG st !! "ssl.SSLContext.wrap_socket" = None.
Proof.
  intros st.
  pose proof (shape_reachable PYTHON_BLACKBOX_DEBUG m0 PYTHON_BLACKBOX_NOAUTO p) as H.
  fold st in H. unfold lifecycle_inv in H.
  destruct (_BLOCKED st); destruct H as [-> ->].
  - split; [reflexivity | apply saved_no_ssl].
  - split; [reflexivity | apply lookup_empty].
Qed.

(** ** Calls through the guard and through the hooks *)

Lemma _log_ORIG msg st : _ORIG (snd (_log msg st)) = _ORIG st.
Proof. rewrite _log_snd. reflexivity. Qed.

Lemma allow_network_create_connection st orig :
  _BLOCKED st = true ->
  _ORIG st !! "socket.create_connection" = Some orig ->
  socket_create_connection (modules (snd (allow_network st))) = orig.
Proof.
  intros Hb Ho. rewrite allow_network_blocked by exact Hb. simpl.
  rewrite Ho. reflexivity.
Qed.

(** X9: inside a [with allow_temporary()] block entered while enforcement
    is on, a call of [socket.create_connection] reaches the saved original
    with its arguments for every host, whitelisted or not; after the block
    enforcement is on again. *)
Theorem guard_lets_calls_through
    (st : State) (orig : callable) (address : option string * Z)
    (timeout : option Z) (source_address : option (string * Z)) :
  _BLOCKED st = true ->
  _ORIG st !! "socket.create_connection" = Some orig ->
  orig <> Fn_blocked_create_connection ->
  fst (allow_temporary
         (call_socket_create_connection address timeout source_address) st)
  = Ok (Call orig (address, timeout, source_address))
  /\ _BLOCKED (snd (allow_temporary
                     (call_socket_create_connection address timeout source_address) st))
     = true.
Proof.
  intros Hb Ho Hne. rewrite allow_temporary_unfold, Hb. simpl. split.
  - unfold call_socket_create_connection, bind, getattr, gets. simpl.
    rewrite (allow_network_create_connection _ orig).
    + destruct orig; try reflexivity. congruence.
    + rewrite _log_BLOCKED. exact Hb.
    + rewrite _log_ORIG. exact Ho.
  - apply block_network_BLOCKED.
Qed.

(** X10: the guard only ever switches enforcement back on.  Entered with
    enforcement off, it leaves a [block_network()] made inside the block
    in force after the block; entered with enforcement on, it ends with
    enforcement on even when the block called [allow_network()]. *)
Theorem guard_only_re_enables (st : State) :
  (_BLOCKED st = false ->
   _BLOCKED (snd (allow_temporary block_network st)) = true)
  /\ (_BLOCKED st = true ->
      _BLOCKED (snd (allow_temporary allow_network st)) = true).
Proof.
  split; intros Hb; rewrite allow_temporary_unfold, Hb; simpl;
    apply block_network_BLOCKED.
Qed.

Lemma guard_only_re_enables_witness :
  _BLOCKED (snd (allow_temporary block_network fresh)) = true
  /\ _BLOCKED (snd (allow_temporary allow_network enforcing)) = true.
Proof.
  split.
  - apply (proj1 (guard_only_re_enables fresh)). reflexivity.
  - apply (proj2 (guard_only_re_enables enforcing)). reflexivity.
Defined.

(** X11: the replacement without its saved original.  When [_ORIG] has no
    entry for "socket.create_connection" -- as after [allow_network()], for
    code that still holds a reference to the replacement -- a call for an
    allowed host raises [KeyError], and a call for a denied host raises
    [NetworkBlockedError] as before. *)
Theorem hook_without_saved_original
    (st : State) (host : string) (port : Z) (timeout : option Z)
    (source_address : option (string * Z)) :
  _ORIG st !! "socket.create_connection" = None ->
  (fst (_host_allowed (Some host) st) = Ok true ->
   fst (_blocked_create_connection (Some host, port) timeout source_address st)
   = Raise (KeyError "socket.create_connection"))
  /\ (fst (_host_allowed (Some host) st) = Ok false ->
      fst (_blocked_create_connection (Some host, port) timeout source_address st)
      = Raise (NetworkBlockedError
                 ("Attempt to connect to " ++ host ++ ":" ++ pretty port
                  ++ " blocked by python_blackbox"))).
Proof.
  intros Ho. destruct (_host_allowed_run host st) as [out Hrun].
  unfold _blocked_create_connection, bind. rewrite Hrun. simpl.
  split; intros H; injection H as H; rewrite H.
  - unfold getitem_ORIG. simpl. rewrite Ho. reflexivity.
  - reflexivity.
Qed.

Section UrlHookFacts.

Variable urlparse_hostname : string -> option string.

(** X12: a call whose host is missing is refused by every replacement,
    whatever the whitelist, and nothing changes in the state: an address
    with host [None], a connection object without a host, a URL in which
    [urlparse] finds no hostname -- and every [urlopen] call whose first
    argument is not a string (a [Request] object), although that object
    may well name a whitelisted host. *)
Theorem missing_host_is_refused (st : State) :
  (forall port timeout source_address,
      _blocked_create_connection (None, port) timeout source_address st =
      (Raise (NetworkBlockedError
                ("Attempt to connect to None:" ++ pretty port
                 ++ " blocked by python_blackbox")), st))
  /\ _blocked_http_connect {| conn_host := None |} st =
     (Raise (NetworkBlockedError "HTTP connect to None blocked by python_blackbox"), st)
  /\ _blocked_urlopen urlparse_hostname None st =
     (Raise (NetworkBlockedError "urlopen to None blocked by python_blackbox"), st)
  /\ (forall url,
        urlparse_hostname url = None ->
        _blocked_urlopen urlparse_hostname (Some url) st =
        (Raise (NetworkBlockedError "urlopen to None blocked by python_blackbox"), st))
  /\ (forall method url,
        urlparse_hostname url = None ->
        _blocked_requests_request urlparse_hostname method url st =
        (Raise (NetworkBlockedError "requests to None blocked by python_blackbox"), st)).
Proof.
  split; [reflexivity|]. split; [reflexivity|]. split; [reflexivity|]. split.
  - intros url H. unfold _blocked_urlopen. rewrite H. reflexivity.
  - intros method url H. unfold _blocked_requests_request. rewrite H. reflexivity.
Qed.

(** X13: one policy for every entry point.  With the four originals saved,
    the four replacements agree on a host [h]: if the matcher allows [h],
    each hands its call with its own arguments to its own saved original;
    if the matcher denies [h], each raises [NetworkBlockedError] and none
    calls an original. *)
Theorem hooks_agree
    (st : State) (h : string) (o1 o2 o3 o4 : callable)
    (port : Z) (timeout : option Z) (source_address : option (string * Z))
    (self : HTTPConnection) (u method url : string) :
  _ORIG st !! "socket.create_connection" = Some o1 ->
  _ORIG st !! "http.client.HTTPConnection.connect" = Some o2 ->
  _ORIG st !! "urllib.request.urlopen" = Some o3 ->
  _ORIG st !! "requests.Session.request" = Some o4 ->
  conn_host self = Some h ->
  urlparse_hostname u = Some h ->
  urlparse_hostname url = Some h ->
  (fst (_host_allowed (Some h) st) = Ok true ->
   fst (_blocked_create_connection (Some h, port) timeout source_address st)
     = Ok (Call o1 ((Some h, port), timeout, source_address))
   /\ fst (_blocked_http_connect self st) = Ok (Call o2 self)
   /\ fst (_blocked_urlopen urlparse_hostname (Some u) st) = Ok (Call o3 (Some u))
   /\ fst (_blocked_requests_request urlparse_hostname method url st)
      = Ok (Call o4 (method, url)))
  /\ (fst (_host_allowed (Some h) st) = Ok false ->
      fst (_blocked_create_connection (Some h, port) timeout source_address st)
        = Raise (NetworkBlockedError
                   ("Attempt to connect to " ++ h ++ ":" ++ pretty port
                    ++ " blocked by python_blackbox"))
      /\ fst (_blocked_http_connect self st)
         = Raise (NetworkBlockedError
                    ("HTTP connect to " ++ h ++ " blocked by python_blackbox"))
      /\ fst (_blocked_urlopen urlparse_hostname (Some u) st)
         = Raise (NetworkBlockedError
                    ("urlopen to " ++ h ++ " blocked by python_blackbox"))
      /\ fst (_blocked_requests_request urlparse_hostname method url st)
         = Raise (NetworkBlockedError
                    ("requests to " ++ h ++ " blocked by python_blackbox"))).
Proof.
  intros H1 H2 H3 H4 Hself Hu Hurl.
  destruct (_host_allowed_run h st) as [out Hrun].
  unfold _blocked_create_connection, _blocked_http_connect, _blocked_urlopen,
    _blocked_requests_request, bind, getitem_ORIG.
  rewrite Hself, Hu, Hurl, Hrun. simpl.
  split; intros H; injection H as H; rewrite H; simpl.
  - rewrite H1, H2, H3, H4. repeat split.
  - repeat split.
Qed.

End UrlHookFacts.

(** ** Import *)

Lemma env_flag_true_iff v :
  env_flag v = true <-> v = "1" \/ v = "true" \/ v = "True".
Proof.
  unfold env_flag. rewrite !orb_true_iff, !String.eqb_eq. tauto.
Qed.

(** X14: what importing the module does.  It never raises.  If
    [PYTHON_BLACKBOX_NOAUTO] is exactly "1", "true" or "True" the globals
    stay as defined.  For every other value -- unset, "0", "TRUE", "yes"
    -- enforcement is switched on: the originals are saved, the
    replacements installed, and the one debug line is printed exactly when
    [PYTHON_BLACKBOX_DEBUG] is "1", "true" or "True". *)
Theorem import_blocks_unless_noauto
    (PYTHON_BLACKBOX_DEBUG PYTHON_BLACKBOX_NOAUTO : string) (m0 : Modules) :
  let r := on_import PYTHON_BLACKBOX_NOAUTO (initial PYTHON_BLACKBOX_DEBUG m0) in
  fst r = Ok tt
  /\ (PYTHON_BLACKBOX_NOAUTO = "1" \/ PYTHON_BLACKBOX_NOAUTO = "true"
      \/ PYTHON_BLACKBOX_NOAUTO = "True" ->
      snd r = initial PYTHON_BLACKBOX_DEBUG m0)
  /\ (~ (PYTHON_BLACKBOX_NOAUTO = "1" \/ PYTHON_BLACKBOX_NOAUTO = "true"
         \/ PYTHON_BLACKBOX_NOAUTO = "True") ->
      snd r =
      mkState (saved m0) true ∅ (env_flag PYTHON_BLACKBOX_DEBUG) (patched m0)
        (if env_flag PYTHON_BLACKBOX_DEBUG
         then ["[python_blackbox DEBUG] Network access blocked on import."]
         else [])).
Proof.
  intros r. subst r. unfold on_import.
  destruct (env_flag PYTHON_BLACKBOX_NOAUTO) eqn:E.
  - apply env_flag_true_iff in E.
    split; [reflexivity|]. split; [reflexivity|]. intros H. contradiction.
  - assert (Hn : ~ (PYTHON_BLACKBOX_NOAUTO = "1" \/ PYTHON_BLACKBOX_NOAUTO = "true"
                    \/ PYTHON_BLACKBOX_NOAUTO = "True")).
    { rewrite <- env_flag_true_iff, E. discriminate. }
    unfold try_pass, bind.
    pose proof (block_network_fst (initial PYTHON_BLACKBOX_DEBUG m0)) as Hf.
    pose proof (block_network_fresh (initial PYTHON_BLACKBOX_DEBUG m0) eq_refl eq_refl)
      as Hs.
    destruct (block_network (initial PYTHON_BLACKBOX_DEBUG m0)) as [rb sb].
    simpl in Hf, Hs. subst rb sb.
    rewrite (_log_eq _ _). simpl. rewrite _log_snd. simpl.
    split; [reflexivity|]. split; [intros H; contradiction|].
    intros _. destruct (env_flag PYTHON_BLACKBOX_DEBUG); reflexivity.
Qed.

Lemma import_blocks_unless_noauto_witness :
  snd (on_import "1" (initial "" (stdlib true))) = initial "" (stdlib true)
  /\ snd (on_import "yes" (initial "true" (stdlib false))) =
     mkState (saved (stdlib false)) true ∅ true (patched (stdlib false))
       ["[python_blackbox DEBUG] Network access blocked on import."].
Proof.
  split.
  - apply (proj1 (proj2 (import_blocks_unless_noauto "" "1" (stdlib true)))).
    left. reflexivity.
  - apply (proj2 (proj2 (import_blocks_unless_noauto "true" "yes" (stdlib false)))).
    intros [H|[H|H]]; discriminate H.
Defined.

(** ** Debug output *)

Lemma block_network_quiet st :
  _DEBUG (snd (block_network st)) = _DEBUG st
  /\ stdout (snd (block_network st)) = stdout st.
Proof. run_block st; split; reflexivity. Qed.

Lemma allow_network_quiet st :
  _DEBUG (snd (allow_network st)) = _DEBUG st
  /\ stdout (snd (allow_network st)) = stdout st.
Proof.
  destruct (_BLOCKED st) eqn:E.
  - rewrite allow_network_blocked by exact E. split; reflexivity.
  - rewrite allow_network_noop by exact E. split; reflexivity.
Qed.

Lemma quiet_log (o : list string) msg :
  preserves (fun st => _DEBUG st = false /\ stdout st = o) (_log msg).
Proof. intros st [Hd Ho]. rewrite _log_snd, Hd. simpl. split; assumption. Qed.

Lemma quiet_exec (o : list string) p :
  keeps_debug_off p = true ->
  preserves (fun st => _DEBUG st = false /\ stdout st = o) (exec p).
Proof.
  induction p as [| | |b|h|h|e|p IHp q IHq|body IH|body IH]; simpl; intros Hp.
  - intros st [Hd Ho]. destruct (block_network_quiet st) as [-> ->]. split; assumption.
  - intros st [Hd Ho]. destruct (allow_network_quiet st) as [-> ->]. split; assumption.
  - intros st H. exact H.
  - destruct b; [discriminate Hp|]. intros st [Hd Ho]. split; [reflexivity | exact Ho].
  - unfold add_whitelist. apply preserves_bind; [|intros _; apply quiet_log].
    intros st H. exact H.
  - unfold remove_whitelist. apply preserves_bind; [|intros _; apply quiet_log].
    intros st H. exact H.
  - intros st H. exact H.
  - apply andb_true_iff in Hp as [Hp Hq].
    apply preserves_bind; [apply IHp, Hp | intros _; apply IHq, Hq].
  - apply preserves_allow_temporary.
    + apply quiet_log.
    + intros st [Hd Ho]. destruct (block_network_quiet st) as [-> ->]. split; assumption.
    + intros st [Hd Ho]. destruct (allow_network_quiet st) as [-> ->]. split; assumption.
    + apply IH, Hp.
  - apply preserves_try_pass, IH, Hp.
Qed.

(** X15: with debug off the module is silent.  Starting with [_DEBUG]
    false, a program over the public API that never calls
    [set_debug(True)] prints nothing and leaves [_DEBUG] false, whatever
    it enables, disables, whitelists or raises. *)
Theorem silent_when_debug_off (p : prog) (st : State) :
  _DEBUG st = false -> keeps_debug_off p = true ->
  stdout (snd (exec p st)) = stdout st /\ _DEBUG (snd (exec p st)) = false.
Proof.
  intros Hd Hp.
  destruct (quiet_exec (stdout st) p Hp st (conj Hd eq_refl)) as [H1 H2].
  split; assumption.
Qed.

Lemma silent_when_debug_off_witness :
  stdout (snd (exec (Seq (Add_whitelist "example.com")
                       (Seq (With_allow_temporary (Remove_whitelist "example.com"))
                          (Seq (Set_debug false) Allow_network)))
                 enforcing))
  = stdout enforcing
  /\ _DEBUG (snd (exec (Seq (Add_whitelist "example.com")
                          (Seq (With_allow_temporary (Remove_whitelist "example.com"))
                             (Seq (Set_debug false) Allow_network)))
                    enforcing))
     = false.
Proof. apply silent_when_debug_off; reflexivity. Defined.

(** ** The whitelist *)

Lemma add_whitelist_snd w st :
  exists out,
    snd (add_whitelist w st) = with_stdout out (with_WHITELIST ({[w]} ∪ _WHITELIST st) st).
Proof.
  unfold add_whitelist, bind, modify. simpl. rewrite _log_snd. eexists. reflexivity.
Qed.

Lemma remove_whitelist_snd w st :
  exists out,
    snd (remove_whitelist w st) =
    with_stdout out (with_WHITELIST (_WHITELIST st ∖ {[w]}) st).
Proof.
  unfold remove_whitelist, bind, modify. simpl. rewrite _log_snd. eexists. reflexivity.
Qed.

(** X16: the whitelist as a set.  [add_whitelist] and [remove_whitelist]
    never raise.  After [add_whitelist(w)] the entry is in, after
    [remove_whitelist(w)] it is out; adding an entry twice is adding it
    once; removing an entry that is not there changes nothing; and removing
    an entry right after adding it gives back the whitelist from before,
    when the entry was not in it. *)
Theorem whitelist_add_remove (w : string) (st : State) :
  (fst (add_whitelist w st) = Ok tt /\ fst (remove_whitelist w st) = Ok tt)
  /\ (w ∈ _WHITELIST (snd (add_whitelist w st)))
  /\ (w ∉ _WHITELIST (snd (remove_whitelist w st)))
  /\ _WHITELIST (snd (add_whitelist w (snd (add_whitelist w st))))
     = _WHITELIST (snd (add_whitelist w st))
  /\ (w ∉ _WHITELIST st -> _WHITELIST (snd (remove_whitelist w st)) = _WHITELIST st)
  /\ (w ∉ _WHITELIST st ->
      _WHITELIST (snd (remove_whitelist w (snd (add_whitelist w st)))) = _WHITELIST st).
Proof.
  clear str_lower_ascii str_lower.
  rewrite !remove_whitelist_WHITELIST, !add_whitelist_WHITELIST.
  split; [|repeat split; set_solver].
  split.
  - unfold add_whitelist, bind, modify. simpl. rewrite (_log_eq _ _). reflexivity.
  - unfold remove_whitelist, bind, modify. simpl. rewrite (_log_eq _ _). reflexivity.
Qed.

Lemma whitelist_add_remove_witness :
  _WHITELIST (snd (remove_whitelist "example.com" enforcing)) = _WHITELIST enforcing
  /\ _WHITELIST (snd (remove_whitelist "example.com"
                        (snd (add_whitelist "example.com" enforcing))))
     = _WHITELIST enforcing.
Proof.
  destruct (whitelist_add_remove "example.com" enforcing) as (_ & _ & _ & _ & H1 & H2).
  split; [apply H1 | apply H2]; apply not_elem_of_empty.
Defined.

Lemma call_create_connection_hooked address timeout source_address st :
  socket_create_connection (modules st) = Fn_blocked_create_connection ->
  call_socket_create_connection address timeout source_address st
  = _blocked_create_connection address timeout source_address st.
Proof.
  intros H. unfold call_socket_create_connection, bind, getattr, gets. simpl.
  rewrite H. reflexivity.
Qed.

(** X17: whitelist changes apply at the next call, with enforcement left
    on.  Take a host that is not a loopback name and that no entry of the
    current whitelist other than [e] covers.  After [add_whitelist(e)],
    with [e] covering the host, a call of [socket.create_connection] for it
    reaches the saved original; after [remove_whitelist(e)] the same call
    raises [NetworkBlockedError]. *)
Theorem whitelist_changes_apply_at_once
    (st : State) (orig : callable) (e h : string) (port : Z)
    (timeout : option Z) (source_address : option (string * Z)) :
  socket_create_connection (modules st) = Fn_blocked_create_connection ->
  _ORIG st !! "socket.create_connection" = Some orig ->
  h <> "" -> covers e (normalize h) ->
  in_loopback (normalize h) = false ->
  (forall w, w ∈ _WHITELIST st -> w <> e -> ~ covers w (normalize h)) ->
  fst (call_socket_create_connection (Some h, port) timeout source_address
         (snd (add_whitelist e st)))
  = Ok (Call orig ((Some h, port), timeout, source_address))
  /\ fst (call_socket_create_connection (Some h, port) timeout source_address
            (snd (remove_whitelist e (snd (add_whitelist e st)))))
     = Raise (NetworkBlockedError
                ("Attempt to connect to " ++ h ++ ":" ++ pretty port
                 ++ " blocked by python_blackbox")).
Proof.
  intros Hattr Ho Hne Hcov Hloop Hothers.
  destruct (add_whitelist_snd e st) as [out1 H1]. rewrite H1.
  destruct (remove_whitelist_snd e
              (with_stdout out1 (with_WHITELIST ({[e]} ∪ _WHITELIST st) st)))
    as [out2 H2].
  rewrite H2. clear H1 H2. simpl.
  rewrite !call_create_connection_hooked by exact Hattr.
  split.
  - destruct (_blocked_create_connection_run h port timeout source_address
                (with_stdout out1 (with_WHITELIST ({[e]} ∪ _WHITELIST st) st))
                orig Ho) as [out ->].
    simpl.
    assert (Hd : decision ({[e]} ∪ _WHITELIST st) h = true).
    { unfold decision. apply orb_true_iff. left.
      apply existsb_entry_matches. exists e.
      split; [apply elem_of_union_l, elem_of_singleton; reflexivity | exact Hcov]. }
    rewrite Hd. destruct h; [congruence | reflexivity].
  - destruct (_blocked_create_connection_run h port timeout source_address
                (with_stdout out2
                   (with_WHITELIST (({[e]} ∪ _WHITELIST st) ∖ {[e]})
                      (with_stdout out1
                         (with_WHITELIST ({[e]} ∪ _WHITELIST st) st))))
                orig Ho) as [out ->].
    simpl.
    rewrite decision_false, andb_false_r; [reflexivity | | exact Hloop].
    intros (w & Hin & Hc).
    apply elem_of_difference in Hin as [Hin Hw].
    apply elem_of_union in Hin as [Hin|Hin]; [contradiction|].
    apply (Hothers w); [exact Hin | | exact Hc].
    intros ->. apply Hw, elem_of_singleton. reflexivity.
Qed.


End StrLower.

(** * Instances

    Everything above holds for every lower-casing function [str_lower].
    The instances below run the statements with [PyStr.ascii_lower], which
    is what [str.lower] does on the ASCII strings they use. *)

Lemma ipv6_loopback_cut_at_colon_witness :
  fst (_host_allowed PyStr.ascii_lower (Some "::1") enforcing) = Ok false
  /\ fst (_host_allowed PyStr.ascii_lower (Some "::1")
            (with_WHITELIST {[""]} enforcing)) = Ok true.
Proof.
  split.
  - apply (proj2 (proj2 (ipv6_loopback_cut_at_colon PyStr.ascii_lower
                           (fun _ _ => eq_refl)))).
  - apply (proj1 (ipv6_loopback_cut_at_colon PyStr.ascii_lower (fun _ _ => eq_refl))).
Defined.

Lemma subdomain_match_witness :
  fst (_host_allowed PyStr.ascii_lower (Some "API.Example.com:8443")
         (with_WHITELIST {["example.com"]} enforcing)) = Ok true
  /\ fst (_host_allowed PyStr.ascii_lower (Some "api.example.com")
            (with_WHITELIST {["example.com"]} enforcing)) = Ok true
  /\ fst (_host_allowed PyStr.ascii_lower (Some "notexample.com")
            (with_WHITELIST {["example.com"]} enforcing)) = Ok false.
Proof.
  split; [|split].
  - apply (proj1 (subdomain_match PyStr.ascii_lower (fun _ _ => eq_refl))
             "API.Example.com:8443" "example.com");
      [reflexivity | discriminate |].
    right. exists "api". reflexivity.
  - apply (proj1 (proj2 (subdomain_match PyStr.ascii_lower (fun _ _ => eq_refl)))
             "api.example.com" "example.com");
      [reflexivity | discriminate | reflexivity | reflexivity |].
    right. exists "api". reflexivity.
  - apply (proj2 (proj2 (subdomain_match PyStr.ascii_lower (fun _ _ => eq_refl)))).
    reflexivity.
Defined.

(** C3 as stated fails: the entry "Example.com" does not match the host
    "Example.com", because only the host is lower-cased. *)
Lemma subdomain_match_as_stated_fails :
  ~ (forall str_lower : string -> string,
        (forall s, PyStr.is_ascii s = true -> str_lower s = PyStr.ascii_lower s) ->
        forall h w st,
          _WHITELIST st = {[w]} -> covers w h ->
          fst (_host_allowed str_lower (Some h) st) = Ok true).
Proof.
  intros H.
  specialize (H PyStr.ascii_lower (fun _ _ => eq_refl)
                "Example.com" "Example.com"
                (with_WHITELIST {["Example.com"]} enforcing)
                eq_refl (or_introl eq_refl)).
  rewrite (mixed_case_entry_denied PyStr.ascii_lower (fun _ _ => eq_refl)) in H
    by reflexivity.
  discriminate H.
Qed.

Lemma host_case_insensitive_witness :
  _host_allowed PyStr.ascii_lower (Some "API.Example.com")
    (with_WHITELIST {["example.com"]} enforcing)
  = _host_allowed PyStr.ascii_lower (Some "api.example.COM")
      (with_WHITELIST {["example.com"]} enforcing)
  /\ _host_allowed PyStr.ascii_lower (Some ("API.Example.com" ++ ":" ++ "8443"))
       (with_WHITELIST {["example.com"]} enforcing)
     = _host_allowed PyStr.ascii_lower (Some ("api.example.com" ++ ":" ++ "443"))
         (with_WHITELIST {["example.com"]} enforcing)
  /\ fst (_host_allowed PyStr.ascii_lower (Some "API.Example.com")
            (with_WHITELIST {["example.com"]} enforcing)) = Ok true.
Proof.
  split; [|split].
  - apply (proj1 (host_case_insensitive PyStr.ascii_lower (fun _ _ => eq_refl)));
      [discriminate | discriminate | reflexivity | reflexivity | reflexivity].
  - apply (proj1 (proj2 (host_case_insensitive PyStr.ascii_lower (fun _ _ => eq_refl))));
      reflexivity.
  - apply (proj2 (proj2 (host_case_insensitive PyStr.ascii_lower (fun _ _ => eq_refl)))).
    reflexivity.
Defined.

(** C4 as stated fails on the whitelist side: the entries "example.com"
    and "Example.com" differ only in letter case, yet the host
    "example.com" is allowed under the first and denied under the second. *)
Lemma entry_case_matters :
  ~ (forall str_lower : string -> string,
        (forall s, PyStr.is_ascii s = true -> str_lower s = PyStr.ascii_lower s) ->
        forall h h' w w' st st',
          _WHITELIST st = {[w]} -> _WHITELIST st' = {[w']} ->
          str_lower h = str_lower h' -> str_lower w = str_lower w' ->
          fst (_host_allowed str_lower (Some h) st)
          = fst (_host_allowed str_lower (Some h') st')).
Proof.
  intros H.
  specialize (H PyStr.ascii_lower (fun _ _ => eq_refl)
                "example.com" "example.com" "example.com" "Example.com"
                (with_WHITELIST {["example.com"]} enforcing)
                (with_WHITELIST {["Example.com"]} enforcing)
                eq_refl eq_refl eq_refl eq_refl).
  rewrite (lower_case_entry_allowed PyStr.ascii_lower (fun _ _ => eq_refl)) in H
    by reflexivity.
  rewrite (upper_case_entry_denied PyStr.ascii_lower (fun _ _ => eq_refl)) in H
    by reflexivity.
  discriminate H.
Qed.

Lemma create_connection_denied_or_delegated_witness :
  fst (call_socket_create_connection PyStr.ascii_lower
         (Some "example.com", 443%Z) None None enforcing)
  = Raise (NetworkBlockedError
             "Attempt to connect to example.com:443 blocked by python_blackbox")
  /\ fst (call_socket_create_connection PyStr.ascii_lower
            (Some "127.0.0.1", 443%Z) None None enforcing)
     = Ok (Call (Original "socket.create_connection")
             ((Some "127.0.0.1", 443%Z), None, None)).
Proof.
  assert (Hb : _BLOCKED enforcing = true) by reflexivity.
  assert (Hh : hook_in_place enforcing).
  { intros _. split; [reflexivity | eexists; reflexivity]. }
  destruct (create_connection_denied_or_delegated PyStr.ascii_lower
              (fun _ _ => eq_refl) enforcing 443%Z None None Hb Hh)
    as (_ & H2 & orig & Ho & H3).
  split.
  - apply H2. intros (w & Hin & _).
    exact (not_elem_of_empty (C:=gset string) w Hin).
  - rewrite H3. vm_compute in Ho. injection Ho as <-. reflexivity.
Defined.

Lemma port_suffix_ignored_witness :
  _host_allowed PyStr.ascii_lower (Some "example.com:8443")
    (with_WHITELIST {["example.com"]} enforcing)
  = _host_allowed PyStr.ascii_lower (Some "example.com")
      (with_WHITELIST {["example.com"]} enforcing).
Proof.
  apply (port_suffix_ignored PyStr.ascii_lower _ "example.com" "8443");
    [discriminate | reflexivity].
Defined.

Lemma host_allowed_monotone_witness :
  fst (_host_allowed PyStr.ascii_lower (Some "api.example.com")
         (with_WHITELIST ({["example.com"]} ∪ {["httpbin.org"]}) enforcing)) = Ok true.
Proof.
  apply (host_allowed_monotone PyStr.ascii_lower
           (with_WHITELIST {["example.com"]} enforcing)).
  - apply union_subseteq_l.
  - vm_compute. reflexivity.
Defined.

Lemma entry_with_colon_or_upper_case_is_dead_witness :
  fst (_host_allowed PyStr.ascii_lower (Some "example.com")
         (snd (add_whitelist "Example.com" enforcing)))
  = fst (_host_allowed PyStr.ascii_lower (Some "example.com") enforcing)
  /\ fst (_host_allowed PyStr.ascii_lower (Some "example.com:443")
            (snd (add_whitelist "example.com:443" enforcing)))
     = fst (_host_allowed PyStr.ascii_lower (Some "example.com:443") enforcing).
Proof.
  split.
  - apply (entry_with_colon_or_upper_case_is_dead PyStr.ascii_lower
             (fun _ _ => eq_refl)); [reflexivity|].
    right. left. discriminate.
  - apply (entry_with_colon_or_upper_case_is_dead PyStr.ascii_lower
             (fun _ _ => eq_refl)); [reflexivity|].
    left. reflexivity.
Defined.

Lemma host_allowed_effect_witness :
  snd (_host_allowed PyStr.ascii_lower (Some "example.com") enforcing) = enforcing
  /\ exists what,
      snd (_host_allowed PyStr.ascii_lower (Some "Example.com:80")
             (with_DEBUG true enforcing)) =
      with_stdout
        (stdout (with_DEBUG true enforcing)
         ++ ["[python_blackbox DEBUG] " ++ what
             ++ normalize PyStr.ascii_lower "Example.com:80"])
        (with_DEBUG true enforcing)
      /\ (what = "Allowing access to whitelisted host "
          \/ what = "Allowing access to localhost "
          \/ what = "Blocking host ").
Proof.
  split.
  - apply (proj1 (host_allowed_effect PyStr.ascii_lower enforcing)). reflexivity.
  - apply (proj2 (proj2 (proj2 (host_allowed_effect PyStr.ascii_lower
                                  (with_DEBUG true enforcing))))).
    + reflexivity.
    + discriminate.
Defined.

Lemma guard_lets_calls_through_witness :
  fst (allow_temporary
         (call_socket_create_connection PyStr.ascii_lower
            (Some "example.com", 443%Z) None None) enforcing)
  = Ok (Call (Original "socket.create_connection")
          ((Some "example.com", 443%Z), None, None))
  /\ _BLOCKED (snd (allow_temporary
                     (call_socket_create_connection PyStr.ascii_lower
                        (Some "example.com", 443%Z) None None) enforcing))
     = true.
Proof.
  apply guard_lets_calls_through; [reflexivity | reflexivity | discriminate].
Defined.

Lemma hook_without_saved_original_witness :
  fst (_blocked_create_connection PyStr.ascii_lower (Some "localhost", 80%Z) None None
         (snd (allow_network enforcing)))
  = Raise (KeyError "socket.create_connection")
  /\ fst (_blocked_create_connection PyStr.ascii_lower
            (Some "example.com", 80%Z) None None (snd (allow_network enforcing)))
     = Raise (NetworkBlockedError
                "Attempt to connect to example.com:80 blocked by python_blackbox").
Proof.
  split.
  - apply (proj1 (hook_without_saved_original PyStr.ascii_lower
                    (snd (allow_network enforcing))
                    "localhost" 80%Z None None eq_refl)).
    reflexivity.
  - apply (proj2 (hook_without_saved_original PyStr.ascii_lower
                    (snd (allow_network enforcing))
                    "example.com" 80%Z None None eq_refl)).
    reflexivity.
Defined.

Lemma missing_host_is_refused_witness :
  _blocked_urlopen PyStr.ascii_lower (fun _ => None) (Some "not a url")
    (with_WHITELIST {["example.com"]} enforcing)
  = (Raise (NetworkBlockedError "urlopen to None blocked by python_blackbox"),
     with_WHITELIST {["example.com"]} enforcing).
Proof.
  apply (proj1 (proj2 (proj2 (proj2
          (missing_host_is_refused PyStr.ascii_lower (fun _ => None)
             (with_WHITELIST {["example.com"]} enforcing)))))).
  reflexivity.
Defined.

Lemma hooks_agree_witness :
  fst (_blocked_requests_request PyStr.ascii_lower (fun _ => Some "httpbin.org") "GET"
         "https://httpbin.org/get" (with_WHITELIST {["httpbin.org"]} enforcing))
  = Ok (Call (Original "requests.Session.request") ("GET", "https://httpbin.org/get"))
  /\ fst (_blocked_requests_request PyStr.ascii_lower (fun _ => Some "httpbin.org") "GET"
            "https://httpbin.org/get" enforcing)
     = Raise (NetworkBlockedError "requests to httpbin.org blocked by python_blackbox").
Proof.
  split.
  - apply (proj1 (hooks_agree PyStr.ascii_lower (fun _ => Some "httpbin.org")
                    (with_WHITELIST {["httpbin.org"]} enforcing) "httpbin.org"
                    (Original "socket.create_connection")
                    (Original "http.client.HTTPConnection.connect")
                    (Original "urllib.request.urlopen")
                    (Original "requests.Session.request")
                    443%Z None None {| conn_host := Some "httpbin.org" |}
                    "https://httpbin.org/get" "GET" "https://httpbin.org/get"
                    eq_refl eq_refl eq_refl eq_refl eq_refl eq_refl eq_refl)).
    vm_compute. reflexivity.
  - apply (proj2 (hooks_agree PyStr.ascii_lower (fun _ => Some "httpbin.org")
                    enforcing "httpbin.org"
                    (Original "socket.create_connection")
                    (Original "http.client.HTTPConnection.connect")
                    (Original "urllib.request.urlopen")
                    (Original "requests.Session.request")
                    443%Z None None {| conn_host := Some "httpbin.org" |}
                    "https://httpbin.org/get" "GET" "https://httpbin.org/get"
                    eq_refl eq_refl eq_refl eq_refl eq_refl eq_refl eq_refl)).
    vm_compute. reflexivity.
Defined.

Lemma whitelist_changes_apply_at_once_witness :
  fst (call_socket_create_connection PyStr.ascii_lower
         (Some "api.example.com", 443%Z) None None
         (snd (add_whitelist "example.com" enforcing)))
  = Ok (Call (Original "socket.create_connection")
          ((Some "api.example.com", 443%Z), None, None))
  /\ fst (call_socket_create_connection PyStr.ascii_lower
            (Some "api.example.com", 443%Z) None None
            (snd (remove_whitelist "example.com"
                    (snd (add_whitelist "example.com" enforcing)))))
     = Raise (NetworkBlockedError
                "Attempt to connect to api.example.com:443 blocked by python_blackbox").
Proof.
  apply (whitelist_changes_apply_at_once PyStr.ascii_lower enforcing
           (Original "socket.create_connection")
           "example.com" "api.example.com" 443%Z None None).
  - reflexivity.
  - reflexivity.
  - discriminate.
  - right. exists "api". reflexivity.
  - reflexivity.
  - intros w Hin. exfalso. exact (not_elem_of_empty (C:=gset string) w Hin).
Defined.
